(** * ofelia: scheduler lifecycle, job counters and the container-run job

    A shallow embedding of the [core] package of ofelia:
    - [core/job.go]      : [BareJob] and its running counter,
    - the scheduler file : [Scheduler], [AddJob], [Start], [Stop],
                           [mergeMiddlewares], [jobWrapper],
    - the run-job file   : [RunJob.Run] and its helpers
                           ([searchLocalImage], [pullImage], [buildContainer],
                           [watchContainer], [deleteContainer], ...).

    Go pointers to job objects are addresses into a store ([gmap]); the
    container runtime behind [docker.Client] is a deterministic state machine
    over an arbitrary world type, and every call made to it is recorded. *)

From Stdlib Require Import ZArith.
From stdpp Require Import gmap strings list.

(** ** Errors *)

(** The [error] values of the package.  The first four sentinels are declared
    in the scheduler file.  The next three ([ErrLocalImageNotFound],
    [ErrMaxTimeRunning], [ErrUnexpected]) are package-level sentinels that the
    run-job file compares with [==]; only their identity matters.
    [ErrExternal] is an error value made by a collaborator (docker client,
    cron parser); it is never identical to a sentinel of this package.
    The remaining constructors are the [fmt.Errorf] values of the run-job
    file, kept structured: the arguments are what the format string prints. *)
Inductive error : Type :=
  | ErrAlreadyStarted
  | ErrAlreadyStopped
  | ErrEmptyScheduler
  | ErrEmptySchedule
  | ErrLocalImageNotFound
  | ErrMaxTimeRunning
  | ErrUnexpected
  | ErrExternal (msg : string)
  | ErrPullingImage (image : string) (cause : string)
      (* "error pulling image %q: %s" *)
  | ErrCreatingExec (cause : string)
      (* "error creating exec: %s" *)
  | ErrConnectingNetwork (cause : string)
      (* "error connecting container to network: %s" *)
  | ErrNonZeroExit (code : Z).
      (* "error non-zero exit code: %d" *)

#[global] Instance error_eq_dec : EqDecision error.
Proof. solve_decision. Defined.

(** ** Machine integers *)

(** Two's-complement wrap-around of Go's [int32] and [int64]. *)
Definition wrap (bits : Z) (z : Z) : Z :=
  ((z + 2 ^ (bits - 1)) mod 2 ^ bits - 2 ^ (bits - 1))%Z.

Definition wrap32 : Z -> Z := wrap 32.
Definition wrap64 : Z -> Z := wrap 64.

Definition MinInt32 : Z := (- 2 ^ 31)%Z.
Definition MaxInt32 : Z := (2 ^ 31 - 1)%Z.

Definition int32 (z : Z) : Prop := (MinInt32 <= z <= MaxInt32)%Z.

(** ** core/job.go *)

Section Core.

(** A middleware object; the scheduler and the jobs only store them. *)
Context {Middleware : Type}.

(** Modelled from the spec: [middlewareContainer], embedded in [BareJob] and
    [Scheduler], whose source ([Use], [Middlewares]) is not in the
    source tree.  The spec gives a job "an ordered list of registered
    middlewares" and says that the global middlewares "are appended to each
    Job's own middleware list". *)
Definition middlewareContainer : Type := list Middleware.

(** Modelled from the spec: [middlewareContainer.Use(ms...)] appends [ms] to
    the ordered list of registered middlewares. *)
Definition Use (ms : list Middleware) (c : middlewareContainer)
  : middlewareContainer := c ++ ms.

(** Modelled from the spec: [middlewareContainer.Middlewares()] returns the
    registered middlewares in order. *)
Definition Middlewares (c : middlewareContainer) : list Middleware := c.

Record BareJob : Type := mkBareJob {
  Schedule : string;
  Name : string;
  Command : string;
  jobMiddlewares : middlewareContainer;
  running : Z   (* int32 *)
}.

Definition GetName (j : BareJob) : string := Name j.
Definition GetSchedule (j : BareJob) : string := Schedule j.
Definition GetCommand (j : BareJob) : string := Command j.

(** [atomic.LoadInt32(&j.running)] *)
Definition Running (j : BareJob) : Z := running j.

Definition set_running (v : Z) (j : BareJob) : BareJob :=
  {| Schedule := Schedule j; Name := Name j; Command := Command j;
     jobMiddlewares := jobMiddlewares j; running := v |}.

(** [atomic.AddInt32(&j.running, delta)]: int32 addition wraps around. *)
Definition AddInt32 (delta : Z) (j : BareJob) : BareJob :=
  set_running (wrap32 (running j + delta)) j.

Definition NotifyStart (j : BareJob) : BareJob := AddInt32 1 j.
Definition NotifyStop (j : BareJob) : BareJob := AddInt32 (-1) j.

(** [j.Use(ms...)] on the embedded container of a job. *)
Definition JobUse (ms : list Middleware) (j : BareJob) : BareJob :=
  {| Schedule := Schedule j; Name := Name j; Command := Command j;
     jobMiddlewares := Use ms (jobMiddlewares j); running := running j |}.

(** The zero value of [BareJob]. *)
Definition zeroJob : BareJob :=
  {| Schedule := ""; Name := ""; Command := "";
     jobMiddlewares := []; running := 0 |}.

#[global] Instance BareJob_inhabited : Inhabited BareJob := populate zeroJob.

(** A history of counter notifications on one job. *)
Inductive Notify : Type := NStart | NStop.

Definition notify (j : BareJob) (n : Notify) : BareJob :=
  match n with NStart => NotifyStart j | NStop => NotifyStop j end.

Definition notifyAll (ns : list Notify) (j : BareJob) : BareJob :=
  foldl notify j ns.

(** Every [NotifyStop] of the history is paired with an earlier
    [NotifyStart]: [paired open ns] with [open] unmatched starts so far. *)
Fixpoint paired (open : nat) (ns : list Notify) : bool :=
  match ns with
  | [] => true
  | NStart :: ns' => paired (S open) ns'
  | NStop :: ns' =>
      match open with
      | O => false
      | S open' => paired open' ns'
      end
  end.

(** ** The scheduler file *)

(** The address of a job object; a [Job] interface value in [Scheduler.Jobs]
    or in a cron entry is such an address, so one object may be reached
    from several places. *)
Definition ptr : Type := positive.

(** Lines handed to the [Logger]. *)
Inductive LogEntry : Type :=
  | NoticeNewJob (name command schedule : string)
      (* Noticef("New job registered %q - %q - %q", ...) *)
  | DebugStarting (jobs : nat)
      (* Debugf("Starting scheduler with %d jobs", ...) *)
  | LogLine (msg : string)      (* ctx.Log *)
  | WarnError (msg : string) (err : error)
      (* ctx.Warn(msg + err.Error()) *)
  | LogFinished (failed skipped : bool) (err : option error).
      (* "Finished in %q, failed: %t, skipped: %t, error: %s" *)

(** The cron trigger ([cron.Cron]) as far as the scheduler drives it: the
    registered entries (schedule expression and wrapped job) and whether it
    was started. *)
Record Cron : Type := mkCron {
  entries : list (string * ptr);
  cronRunning : bool
}.

(** [cron.New()] *)
Definition cronNew : Cron := {| entries := []; cronRunning := false |}.

(** The schedule parser of the cron library: [None] when the expression is
    accepted, the parser's message otherwise. *)
Variable cronParse : string -> option string.

(** [c.AddJob(spec, cmd)] of the cron library. *)
Definition cronAddJob (spec : string) (j : ptr) (c : Cron) : option error * Cron :=
  match cronParse spec with
  | Some msg => (Some (ErrExternal msg), c)
  | None => (None, {| entries := entries c ++ [(spec, j)];
                      cronRunning := cronRunning c |})
  end.

Definition cronSetRunning (b : bool) (c : Cron) : Cron :=
  {| entries := entries c; cronRunning := b |}.

(** [type Scheduler struct].  The [sync.WaitGroup] counts runs in flight;
    in this sequential model no run is in flight when [Stop] is called, so
    [wg.Wait()] returns at once and the field is left out. *)
Record Scheduler : Type := mkScheduler {
  Jobs : list ptr;
  Logger : list LogEntry;           (* lines logged so far, oldest first *)
  schedMiddlewares : middlewareContainer;
  cron : Cron;
  isRunning : bool
}.

(** The scheduler together with the job objects its [Jobs] point to. *)
Record Mem : Type := mkMem {
  sched : Scheduler;
  objs : gmap positive BareJob
}.

(** [*p] for a job address. *)
Definition deref (m : Mem) (p : ptr) : BareJob := objs m !!! p.

(** [NewScheduler(l)] *)
Definition NewScheduler : Scheduler :=
  {| Jobs := []; Logger := []; schedMiddlewares := [];
     cron := cronNew; isRunning := false |}.

Definition logTo (e : LogEntry) (s : Scheduler) : Scheduler :=
  {| Jobs := Jobs s; Logger := Logger s ++ [e];
     schedMiddlewares := schedMiddlewares s; cron := cron s;
     isRunning := isRunning s |}.

(** [s.Use(ms...)] on the scheduler's own container (the global middlewares). *)
Definition SchedulerUse (ms : list Middleware) (m : Mem) : Mem :=
  let s := sched m in
  {| sched := {| Jobs := Jobs s; Logger := Logger s;
                 schedMiddlewares := Use ms (schedMiddlewares s);
                 cron := cron s; isRunning := isRunning s |};
     objs := objs m |}.

Definition AddJob (j : ptr) (m : Mem) : option error * Mem :=
  let job := deref m j in
  let s := logTo (NoticeNewJob (GetName job) (GetCommand job) (GetSchedule job))
                 (sched m) in
  if decide (GetSchedule job = "") then
    (Some ErrEmptySchedule, {| sched := s; objs := objs m |})
  else
    match cronAddJob (GetSchedule job) j (cron s) with
    | (Some err, _) => (Some err, {| sched := s; objs := objs m |})
    | (None, c) =>
        (None, {| sched := {| Jobs := Jobs s ++ [j]; Logger := Logger s;
                              schedMiddlewares := schedMiddlewares s;
                              cron := c; isRunning := isRunning s |};
                  objs := objs m |})
    end.

(** [for _, j := range s.Jobs { j.Use(s.Middlewares()...) }] *)
Definition mergeMiddlewares (m : Mem) : Mem :=
  {| sched := sched m;
     objs := foldl (fun h j => alter (JobUse (Middlewares (schedMiddlewares (sched m)))) j h)
                   (objs m) (Jobs (sched m)) |}.

Definition Start (m : Mem) : option error * Mem :=
  let s := sched m in
  if isRunning s then (Some ErrAlreadyStarted, m)
  else if decide (length (Jobs s) = 0) then (Some ErrEmptyScheduler, m)
  else
    let m1 := mergeMiddlewares
                {| sched := logTo (DebugStarting (length (Jobs s))) s;
                   objs := objs m |} in
    let s1 := sched m1 in
    (None, {| sched := {| Jobs := Jobs s1; Logger := Logger s1;
                          schedMiddlewares := schedMiddlewares s1;
                          cron := cronSetRunning true (cron s1);
                          isRunning := true |};
              objs := objs m1 |}).

Definition Stop (m : Mem) : option error * Mem :=
  let s := sched m in
  if negb (isRunning s) then (Some ErrAlreadyStopped, m)
  else
    (None, {| sched := {| Jobs := Jobs s; Logger := Logger s;
                          schedMiddlewares := schedMiddlewares s;
                          cron := cronSetRunning false (cron s);
                          isRunning := false |};
              objs := objs m |}).

Definition IsRunning (m : Mem) : bool := isRunning (sched m).

(** Scheduler operations, for histories of calls. *)
Inductive Op : Type :=
  | OpAddJob (j : ptr)
  | OpStart
  | OpStop.

#[global] Instance Op_eq_dec : EqDecision Op.
Proof. solve_decision. Defined.

Definition step (m : Mem) (o : Op) : option error * Mem :=
  match o with
  | OpAddJob j => AddJob j m
  | OpStart => Start m
  | OpStop => Stop m
  end.

(** The store after a history of calls (their errors are dropped, as
    [Config.build] drops those of [AddJob]). *)
Definition runOps (ops : list Op) (m : Mem) : Mem :=
  foldl (fun m o => snd (step m o)) m ops.


(** How often an address occurs in a registry. *)
Definition occurrences (j : ptr) (l : list ptr) : nat :=
  length (filter (fun x => x = j) l).

(** How often [mergeMiddlewares] reached the object at [j] during a history:
    once per entry of [j] in the registry at every successful [Start]. *)
Fixpoint merges (j : ptr) (ops : list Op) (m : Mem) : nat :=
  match ops with
  | [] => 0
  | o :: ops' =>
      let r := step m o in
      (match o, fst r with
       | OpStart, None => occurrences j (Jobs (sched m))
       | _, _ => 0
       end) + merges j ops' (snd r)
  end.

(** The highest value a counter starting at [c] takes along a history of
    notifications, were it not bounded. *)
Fixpoint peak (c : Z) (ns : list Notify) : Z :=
  match ns with
  | [] => c
  | NStart :: ns' => Z.max c (peak (c + 1) ns')
  | NStop :: ns' => Z.max c (peak (c - 1) ns')
  end.

(** *** jobWrapper *)

(** Modelled from the spec: [Execution] (its source is not in the source
    tree), section 3: outcome flags, terminal error and the two
    output sinks; [TotalWritten] of a sink is the length of its content.
    Time stamps and [Duration] are left out. *)
Record Execution : Type := mkExecution {
  Failed : bool;
  Skipped : bool;
  ExecError : option error;
  OutputStream : string;
  ErrorStream : string
}.

(** Modelled from the spec: [NewExecution()], a fresh record. *)
Definition NewExecution : Execution :=
  {| Failed := false; Skipped := false; ExecError := None;
     OutputStream := ""; ErrorStream := "" |}.

(** Modelled from the spec: [Context.Log(msg)], "delegating to the
    Scheduler's logger". *)
Definition ContextLog (msg : string) (m : Mem) : Mem :=
  {| sched := logTo (LogLine msg) (sched m); objs := objs m |}.

(** Modelled from the spec: [Context.Start()], whose source is not in the
    source tree: bookkeeping on the Execution and the run entry of the
    job, "incremented exactly once per run entry". *)
Definition ContextStart (j : ptr) (m : Mem) : Mem :=
  {| sched := sched m; objs := alter NotifyStart j (objs m) |}.

(** Modelled from the spec: [Context.Stop(err)], whose source is not in
    the source tree: records the outcome ("Failed is true iff Error is
    non-nil and Skipped is false") and the run exit of the job,
    "decremented exactly once per run exit regardless of outcome". *)
Definition ContextStop (j : ptr) (err : option error) (e : Execution) (m : Mem)
  : Execution * Mem :=
  ({| Failed := bool_decide (err ≠ None) && negb (Skipped e);
      Skipped := Skipped e; ExecError := err;
      OutputStream := OutputStream e; ErrorStream := ErrorStream e |},
   {| sched := sched m; objs := alter NotifyStop j (objs m) |}).

(** [func (w *jobWrapper) start(ctx *Context)] *)
Definition jobWrapper_start (j : ptr) (m : Mem) : Mem :=
  let m1 := ContextStart j m in
  ContextLog ("Started - " +:+ GetCommand (deref m1 j)) m1.

(** [func (w *jobWrapper) stop(ctx *Context, err error)] *)
Definition jobWrapper_stop (j : ptr) (err : option error) (e : Execution) (m : Mem)
  : Execution * Mem :=
  let '(e1, m1) := ContextStop j err e m in
  let m2 := if decide (0 < String.length (OutputStream e1))
            then ContextLog ("StdOut: " +:+ OutputStream e1) m1 else m1 in
  let m3 := if decide (0 < String.length (ErrorStream e1))
            then ContextLog ("StdErr: " +:+ ErrorStream e1) m2 else m2 in
  (e1, {| sched := logTo (LogFinished (Failed e1) (Skipped e1) (ExecError e1)) (sched m3);
          objs := objs m3 |}).

(** [func (w *jobWrapper) Run()].  [next] is [ctx.Next()]: the middleware
    chain and, at its end, the body of the job.  [wg.Add(1)] and the deferred
    [wg.Done()] only count the runs in flight for [Stop] and are left out. *)
Definition jobWrapper_Run
    (next : Execution -> Mem -> option error * (Execution * Mem))
    (j : ptr) (m : Mem) : Execution * Mem :=
  let e := NewExecution in
  let m1 := jobWrapper_start j m in
  let '(err, (e1, m2)) := next e m1 in
  jobWrapper_stop j err e1 m2.

End Core.

(** ** strconv.ParseBool *)

(** The Go standard library's [strconv.ParseBool]: it accepts 1, t, T, TRUE,
    true, True, 0, f, F, FALSE, false, False; any other value returns
    [false] and a syntax error. *)
Definition ParseBool (str : string) : bool * option error :=
  if bool_decide (str ∈ ["1"; "t"; "T"; "true"; "TRUE"; "True"]) then (true, None)
  else if bool_decide (str ∈ ["0"; "f"; "F"; "false"; "FALSE"; "False"]) then (false, None)
  else (false, Some (ErrExternal ("strconv.ParseBool: parsing " +:+ str +:+ ": invalid syntax"))).

(** ** The docker client *)

Module docker.

(** [docker.State]: the two fields the run job reads. *)
Record State : Type := mkState {
  Running : bool;
  ExitCode : Z   (* int *)
}.

Record Container : Type := mkContainer {
  ID : string;
  CState : State
}.

Record APIImages : Type := mkAPIImages { ImageID : string }.

Record Network : Type := mkNetwork { NetworkID : string }.

Record Config : Type := mkConfig {
  CImage : string;
  AttachStdin : bool;
  AttachStdout : bool;
  AttachStderr : bool;
  Tty : bool;
  Cmd : list string;
  CUser : string
}.

Record CreateContainerOptions : Type := mkCreateContainerOptions {
  CConfig : Config;
  Binds : list string   (* HostConfig.Binds *)
}.

Record LogsOptions : Type := mkLogsOptions {
  LContainer : string;
  Stdout : bool;
  Stderr : bool;
  Since : Z;
  RawTerminal : bool
}.

(** The operations the run job consumes.  [W] is the state of the container
    runtime; an operation answers and moves that state on.  A failure is the
    message of the client's error. *)
Record Client (W : Type) : Type := mkClient {
  ListImages : string -> W -> (list APIImages + string) * W;
  PullImage : string -> W -> option string * W;
  CreateContainer : CreateContainerOptions -> W -> (Container + string) * W;
  FilteredListNetworks : string -> W -> (list Network + string) * W;
  ConnectNetwork : string -> string -> W -> option string * W;
  StartContainer : string -> W -> option string * W;
  InspectContainerWithOptions : string -> W -> (Container + string) * W;
  (* bytes written to the output sink, to the error sink, and the error *)
  Logs : LogsOptions -> W -> (string * string * option string) * W;
  RemoveContainer : string -> W -> option string * W
}.

Arguments ListImages {W}.
Arguments PullImage {W}.
Arguments CreateContainer {W}.
Arguments FilteredListNetworks {W}.
Arguments ConnectNetwork {W}.
Arguments StartContainer {W}.
Arguments InspectContainerWithOptions {W}.
Arguments Logs {W}.
Arguments RemoveContainer {W}.

(** A record of one call to the client. *)
Inductive Call : Type :=
  | CallListImages (image : string)
  | CallPullImage (image : string)
  | CallCreateContainer (opts : CreateContainerOptions)
  | CallFilteredListNetworks (name : string)
  | CallConnectNetwork (network container : string)
  | CallStartContainer (id : string)
  | CallInspectContainer (id : string)
  | CallLogs (opts : LogsOptions)
  | CallRemoveContainer (id : string).

End docker.

(** ** The run-job file *)

Section RunJobModel.

(** [W]: the state of the container runtime; [Middleware]: see [BareJob]. *)
Context {W Middleware : Type}.

(** [args.GetArgs] of the gobs/args library: the tokenizer of the command
    line. *)
Variable GetArgs : string -> list string.

Record RunJob : Type := mkRunJob {
  Bare : @BareJob Middleware;   (* embedded BareJob *)
  Client : docker.Client W;
  User : string;
  TTY : bool;
  Delete : string;
  Pull : string;
  Image : string;
  Network : string;
  Container : string;
  Volume : list string
}.

(** What a run acts on: the container runtime behind the client, with the
    calls made to it (oldest first); the clock read by [time.Now] and moved
    by [time.Sleep], in nanoseconds; and the [Context] of the run: the lines
    given to [ctx.Log] and [ctx.Warn] and the two sinks of [ctx.Execution]. *)
Record Env : Type := mkEnv {
  world : W;
  calls : list docker.Call;
  clock : Z;
  ctxLogger : list LogEntry;
  ctxOutput : string;
  ctxError : string
}.

(** State passing: a computation reads and updates the [Env]. *)
Definition M (A : Type) : Type := Env -> A * Env.

#[local] Instance M_ret : MRet M := fun A (a : A) env => (a, env).

#[local] Instance M_bind : MBind M :=
  fun A B (k : A -> M B) (m : M A) env => let (a, env') := m env in k a env'.

(** One call to the client: it is recorded and moves the runtime on. *)
Definition invoke {A : Type} (c : docker.Call) (op : W -> A * W) : M A :=
  fun env =>
    let (a, w) := op (world env) in
    (a, {| world := w; calls := calls env ++ [c]; clock := clock env;
           ctxLogger := ctxLogger env; ctxOutput := ctxOutput env;
           ctxError := ctxError env |}).

Definition logLine (e : LogEntry) : M unit :=
  fun env =>
    (tt, {| world := world env; calls := calls env; clock := clock env;
            ctxLogger := ctxLogger env ++ [e]; ctxOutput := ctxOutput env;
            ctxError := ctxError env |}).

(** [ctx.Log(msg)] and [ctx.Warn(msg + err.Error())] *)
Definition ctxLog (msg : string) : M unit := logLine (LogLine msg).
Definition ctxWarn (msg : string) (err : error) : M unit :=
  logLine (WarnError msg err).

(** Bytes arriving in [ctx.Execution.OutputStream] and [ErrorStream]. *)
Definition writeStreams (out err : string) : M unit :=
  fun env =>
    (tt, {| world := world env; calls := calls env; clock := clock env;
            ctxLogger := ctxLogger env; ctxOutput := ctxOutput env +:+ out;
            ctxError := ctxError env +:+ err |}).

(** [time.Now()] *)
Definition Now : M Z := fun env => (clock env, env).

(** [time.Sleep(d)] *)
Definition Sleep (d : Z) : M unit :=
  fun env =>
    (tt, {| world := world env; calls := calls env; clock := (clock env + d)%Z;
            ctxLogger := ctxLogger env; ctxOutput := ctxOutput env;
            ctxError := ctxError env |}).

(** [t.Unix()]: whole seconds of a nanosecond reading. *)
Definition Unix (t : Z) : Z := (t / 1000000000)%Z.

(** [time.Duration] constants, in nanoseconds. *)
Definition watchDuration : Z := (100 * 1000000)%Z.               (* time.Millisecond * 100 *)
Definition maxProcessDuration : Z := (24 * 3600 * 1000000000)%Z.   (* time.Hour * 24 *)

Definition searchLocalImage (j : RunJob) : M (option error) :=
  r ← invoke (docker.CallListImages (Image j))
              (docker.ListImages (Client j) (Image j));
  match r with
  | inr msg => mret (Some (ErrExternal msg))
  | inl imgs =>
      if decide (length imgs ≠ 1) then mret (Some ErrLocalImageNotFound)
      else mret None
  end.

Definition pullImage (j : RunJob) : M (option error) :=
  r ← invoke (docker.CallPullImage (Image j))
              (docker.PullImage (Client j) (Image j));
  match r with
  | Some msg => mret (Some (ErrPullingImage (Image j) msg))
  | None => mret None
  end.

(** The closure called at the head of [Run]: it resolves the image. *)
Definition resolveImage (j : RunJob) (pull : bool) : M (option error) :=
  (* if pull { if pullError = j.pullImage(); pullError == nil { ... return nil } } *)
  pullError ← (if pull then pullImage j else mret None);
  if pull && bool_decide (pullError = None) then
    ctxLog ("Pulled image " +:+ Image j);; mret None
  else
    searchErr ← searchLocalImage j;
    match searchErr with
    | None => ctxLog ("Found locally image " +:+ Image j);; mret None
    | Some serr =>
        if negb pull && bool_decide (serr = ErrLocalImageNotFound) then
          pullError ← pullImage j;
          match pullError with
          | None => ctxLog ("Pulled image " +:+ Image j);; mret None
          | Some perr => mret (Some perr)      (* if pullError != nil *)
          end
        else
          match pullError with
          | Some perr => mret (Some perr)      (* if pullError != nil *)
          | None => mret (Some serr)           (* if searchErr != nil *)
          end
    end.

(** The [for _, network := range networks] loop of [buildContainer]. *)
Fixpoint connectNetworks (j : RunJob) (c : docker.Container)
    (networks : list docker.Network) : M (option error) :=
  match networks with
  | [] => mret None
  | network :: rest =>
      r ← invoke (docker.CallConnectNetwork (docker.NetworkID network) (docker.ID c))
                  (docker.ConnectNetwork (Client j) (docker.NetworkID network) (docker.ID c));
      match r with
      | Some msg => mret (Some (ErrConnectingNetwork msg))
      | None => connectNetworks j c rest
      end
  end.

Definition createOptions (j : RunJob) : docker.CreateContainerOptions :=
  {| docker.CConfig :=
       {| docker.CImage := Image j;
          docker.AttachStdin := false;
          docker.AttachStdout := true;
          docker.AttachStderr := true;
          docker.Tty := TTY j;
          docker.Cmd := GetArgs (Command (Bare j));
          docker.CUser := User j |};
     docker.Binds := Volume j |}.

(** [buildContainer] returns the pair [(c, err)]; its caller reads [c] only
    when [err] is nil, so the result is the container or the error. *)
Definition buildContainer (j : RunJob) : M (docker.Container + error) :=
  r ← invoke (docker.CallCreateContainer (createOptions j))
              (docker.CreateContainer (Client j) (createOptions j));
  match r with
  | inr msg => mret (inr (ErrCreatingExec msg))
  | inl c =>
      if decide (Network j ≠ "") then
        nets ← invoke (docker.CallFilteredListNetworks (Network j))
                       (docker.FilteredListNetworks (Client j) (Network j));
        match nets with
        | inl networks =>
            err ← connectNetworks j c networks;
            match err with
            | Some e => mret (inr e)
            | None => mret (inl c)
            end
        | inr _ => mret (inl c)
        end
      else mret (inl c)
  end.

Definition startContainer (j : RunJob) (c : docker.Container) : M (option error) :=
  r ← invoke (docker.CallStartContainer (docker.ID c))
              (docker.StartContainer (Client j) (docker.ID c));
  mret (ErrExternal <$> r).

Definition getContainer (j : RunJob) (id : string) : M (docker.Container + error) :=
  r ← invoke (docker.CallInspectContainer id)
              (docker.InspectContainerWithOptions (Client j) id);
  match r with
  | inr msg => mret (inr (ErrExternal msg))
  | inl container => mret (inl container)
  end.

(** The [for] loop of [watchContainer], with [r] the time slept so far
    (an int64 of nanoseconds).  It leaves with the state of the stopped
    container ([inl]) or with an error ([inr]); [None] only when [fuel]
    iterations were not enough. *)
Fixpoint watchLoop (fuel : nat) (j : RunJob) (containerID : string) (r : Z)
    : M (option (docker.State + error)) :=
  match fuel with
  | O => mret None
  | S fuel' =>
      Sleep watchDuration;;
      let r := wrap64 (r + watchDuration) in
      if decide (r > maxProcessDuration)%Z then mret (Some (inr ErrMaxTimeRunning))
      else
        c ← invoke (docker.CallInspectContainer containerID)
                    (docker.InspectContainerWithOptions (Client j) containerID);
        match c with
        | inr msg => mret (Some (inr (ErrExternal msg)))
        | inl c =>
            if negb (docker.Running (docker.CState c))
            then mret (Some (inl (docker.CState c)))
            else watchLoop fuel' j containerID r
        end
  end.

(** The [switch s.ExitCode] of [watchContainer]. *)
Definition exitError (s : docker.State) : option error :=
  if decide (docker.ExitCode s = 0)%Z then None
  else if decide (docker.ExitCode s = -1)%Z then Some ErrUnexpected
  else Some (ErrNonZeroExit (docker.ExitCode s)).

(** How many sleeps fit under the ceiling (864000), and the iterations the
    loop can make: it leaves at the latest when the time slept passes the
    ceiling. *)
Definition ceilingPolls : nat := Z.to_nat (maxProcessDuration / watchDuration).
Definition maxPolls : nat := S ceilingPolls.

Definition watchContainer (j : RunJob) (containerID : string) : M (option error) :=
  r ← watchLoop maxPolls j containerID 0;
  match r with
  | Some (inl s) => mret (exitError s)
  | Some (inr err) => mret (Some err)
  | None => mret None   (* never reached: see [watchLoop_enough] *)
  end.

Definition deleteContainer (j : RunJob) (containerID : string) : M (option error) :=
  if negb (fst (ParseBool (Delete j))) then mret None
  else
    r ← invoke (docker.CallRemoveContainer containerID)
                (docker.RemoveContainer (Client j) containerID);
    mret (ErrExternal <$> r).

(** [Run], first part: the container to run, or the error [Run] returns. *)
Definition acquire (j : RunJob) : M (docker.Container + error) :=
  let pull := fst (ParseBool (Pull j)) in
  if decide (Image j ≠ "" ∧ Container j = "") then
    err ← resolveImage j pull;
    match err with
    | Some e => mret (inr e)
    | None => buildContainer j
    end
  else getContainer j (Container j).

Definition logsOptions (j : RunJob) (container : docker.Container) (startTime : Z)
  : docker.LogsOptions :=
  {| docker.LContainer := docker.ID container;
     docker.Stdout := true;
     docker.Stderr := true;
     docker.Since := Unix startTime;
     docker.RawTerminal := TTY j |}.

(** [Run], last part: from [watchContainer] to the return. *)
Definition finish (j : RunJob) (container : docker.Container) (startTime : Z)
  : M (option error) :=
  err ← watchContainer j (docker.ID container);
  if decide (err = Some ErrUnexpected) then mret err
  else
    r ← invoke (docker.CallLogs (logsOptions j container startTime))
                (docker.Logs (Client j) (logsOptions j container startTime));
    let '(out, errout, logsErr) := r in
    writeStreams out errout;;
    (match logsErr with
     | Some msg => ctxWarn "failed to fetch container logs: " (ErrExternal msg)
     | None => mret tt
     end);;
    (* the deferred function runs once the returned value is fixed *)
    (if decide (Container j = "") then
       delErr ← deleteContainer j (docker.ID container);
       match delErr with
       | Some e => ctxWarn "failed to delete container: " e
       | None => mret tt
       end
     else mret tt);;
    mret err.

(** [j] with another value of its [Pull] field. *)
Definition withPull (p : string) (j : RunJob) : RunJob :=
  {| Bare := Bare j; Client := Client j; User := User j; TTY := TTY j;
     Delete := Delete j; Pull := p; Image := Image j; Network := Network j;
     Container := Container j; Volume := Volume j |}.

(** [runsFor j id k w w']: from the runtime state [w], the next [k]
    inspections of the container [id] succeed and report it running, and
    leave the runtime in [w']. *)
Inductive runsFor (j : RunJob) (id : string) : nat -> W -> W -> Prop :=
  | runsFor_O w : runsFor j id 0 w w
  | runsFor_S k w w1 w' c :
      docker.InspectContainerWithOptions (Client j) id w = (inl c, w1) ->
      docker.Running (docker.CState c) = true ->
      runsFor j id k w1 w' ->
      runsFor j id (S k) w w'.

Definition Run (j : RunJob) : M (option error) :=
  acq ← acquire j;
  match acq with
  | inr err => mret (Some err)
  | inl container =>
      startTime ← Now;
      serr ← startContainer j container;
      match serr with
      | Some err => mret (Some err)
      | None => finish j container startTime
      end
  end.

End RunJobModel.

(** ** A scripted container runtime

    A client whose answers are fixed in advance, for running the model on
    concrete inputs. *)

Module mock.

Record World : Type := mkWorld {
  images : list docker.APIImages + string;        (* answer of ListImages *)
  pull : option string;                            (* answer of PullImage *)
  create : docker.Container + string;              (* answer of CreateContainer *)
  networks : list docker.Network + string;         (* answer of FilteredListNetworks *)
  connect : option string;                         (* answer of ConnectNetwork *)
  start : option string;                           (* answer of StartContainer *)
  inspections : list (docker.Container + string);  (* answers of the next inspections *)
  idle : docker.Container + string;                (* answer once the script is used up *)
  logs : string * string * option string;          (* answer of Logs *)
  remove : option string                           (* answer of RemoveContainer *)
}.

Definition inspect (w : World) : (docker.Container + string) * World :=
  match inspections w with
  | [] => (idle w, w)
  | c :: rest =>
      (c, {| images := images w; pull := pull w; create := create w;
             networks := networks w; connect := connect w; start := start w;
             inspections := rest; idle := idle w; logs := logs w;
             remove := remove w |})
  end.

Definition client : docker.Client World :=
  {| docker.ListImages := fun _ w => (images w, w);
     docker.PullImage := fun _ w => (pull w, w);
     docker.CreateContainer := fun _ w => (create w, w);
     docker.FilteredListNetworks := fun _ w => (networks w, w);
     docker.ConnectNetwork := fun _ _ w => (connect w, w);
     docker.StartContainer := fun _ w => (start w, w);
     docker.InspectContainerWithOptions := fun _ w => inspect w;
     docker.Logs := fun _ w => (logs w, w);
     docker.RemoveContainer := fun _ w => (remove w, w) |}.

Definition alive : docker.State :=
  {| docker.Running := true; docker.ExitCode := 0 |}.

Definition exited (code : Z) : docker.State :=
  {| docker.Running := false; docker.ExitCode := code |}.

Definition container (s : docker.State) : docker.Container :=
  {| docker.ID := "c0ffee"; docker.CState := s |}.

(** A runtime where everything succeeds: the image is found both locally and
    remotely, one network matches, and the container is seen running once
    and then stopped with [code]. *)
Definition runtime (code : Z) : World :=
  {| images := inl [docker.mkAPIImages "sha256:1"];
     pull := None;
     create := inl (container alive);
     networks := inl [docker.mkNetwork "net0"];
     connect := None;
     start := None;
     inspections := [inl (container alive); inl (container (exited code))];
     idle := inl (container (exited code));
     logs := ("out", "err", None);
     remove := None |}.

(** A run job creating a container from the image [busybox]. *)
Definition job (pull delete : string) : @RunJob World unit :=
  {| Bare := {| Schedule := "@hourly"; Name := "job"; Command := "echo hello";
                jobMiddlewares := []; running := 0 |};
     Client := client;
     User := "root";
     TTY := false;
     Delete := delete;
     Pull := pull;
     Image := "busybox";
     Network := "";
     Container := "";
     Volume := [] |}.

Definition env (w : World) : @Env World :=
  {| world := w; calls := []; clock := 0; ctxLogger := [];
     ctxOutput := ""; ctxError := "" |}.

(** A tokenizer splitting at nothing: enough for the scripted runs. *)
Definition getArgs (s : string) : list string := [s].

(** Variations of a runtime. *)
Definition imageMissing (w : World) : World :=
  {| images := inl []; pull := pull w; create := create w;
     networks := networks w; connect := connect w; start := start w;
     inspections := inspections w; idle := idle w; logs := logs w;
     remove := remove w |}.

Definition pullDenied (w : World) : World :=
  {| images := images w; pull := Some "pull access denied"; create := create w;
     networks := networks w; connect := connect w; start := start w;
     inspections := inspections w; idle := idle w; logs := logs w;
     remove := remove w |}.

Definition listingFails (w : World) : World :=
  {| images := images w; pull := pull w; create := create w;
     networks := inr "daemon unreachable"; connect := connect w; start := start w;
     inspections := inspections w; idle := idle w; logs := logs w;
     remove := remove w |}.

Definition connectFails (w : World) : World :=
  {| images := images w; pull := pull w; create := create w;
     networks := networks w; connect := Some "network is gone"; start := start w;
     inspections := inspections w; idle := idle w; logs := logs w;
     remove := remove w |}.

Definition logsFail (w : World) : World :=
  {| images := images w; pull := pull w; create := create w;
     networks := networks w; connect := connect w; start := start w;
     inspections := inspections w; idle := idle w;
     logs := ("", "", Some "broken pipe"); remove := remove w |}.

(** A runtime whose container never stops. *)
Definition forever : World :=
  {| images := images (runtime 0); pull := pull (runtime 0);
     create := create (runtime 0); networks := networks (runtime 0);
     connect := connect (runtime 0); start := start (runtime 0);
     inspections := []; idle := inl (container alive);
     logs := logs (runtime 0); remove := remove (runtime 0) |}.

(** [j] attached to the network [backend]. *)
Definition networked (j : @RunJob World unit) : @RunJob World unit :=
  {| Bare := Bare j; Client := Client j; User := User j; TTY := TTY j;
     Delete := Delete j; Pull := Pull j; Image := Image j; Network := "backend";
     Container := Container j; Volume := Volume j |}.

End mock.

(** ** A small scheduler

    One job object at address 1, scheduled daily and without middlewares of
    its own, and a scheduler with one global middleware; middlewares are
    told apart by a name, and the cron parser accepts every schedule. *)

Module sample.

Definition job : @BareJob string :=
  {| Schedule := "@daily"; Name := "backup"; Command := "tar cz /data";
     jobMiddlewares := []; running := 0 |}.

Definition parse (spec : string) : option string := None.

Definition mem : @Mem string :=
  SchedulerUse ["slack"] {| sched := NewScheduler; objs := {[ 1%positive := job ]} |}.

(** The same scheduler once the job is registered. *)
Definition registered : @Mem string := snd (AddJob parse 1%positive mem).

(** A job whose schedule was left empty, at address 2. *)
Definition unscheduled : @Mem string :=
  {| sched := sched registered;
     objs := <[ 2%positive := zeroJob ]> (objs registered) |}.

(** A scheduler marked as running although its registry is empty. *)
Definition emptyRunning : @Mem string :=
  {| sched := {| Jobs := []; Logger := []; schedMiddlewares := [];
                 cron := cronSetRunning true cronNew; isRunning := true |};
     objs := ∅ |}.

(** A chain that does nothing and fails. *)
Definition failing (e : @Execution) (m : @Mem string)
  : option error * (Execution * @Mem string) :=
  (Some (ErrExternal "exit status 1"), (e, m)).

End sample.

(** ** Notions for the further properties *)

(** The balance of a history of notifications: starts minus stops. *)
Fixpoint balance (ns : list Notify) : Z :=
  match ns with
  | [] => 0
  | NStart :: ns' => (1 + balance ns')%Z
  | NStop :: ns' => (balance ns' - 1)%Z
  end.

(** The registry, the cron trigger and the flags of a scheduler agree: the
    scheduler runs exactly when its cron trigger does, the cron entries are
    the registered jobs in order, each under the schedule of its job, every
    registered schedule is non-empty and accepted by the cron parser
    [parse], and a running scheduler has a job. *)
Definition consistent {Middleware : Type} (parse : string -> option string)
    (m : @Mem Middleware) : Prop :=
  isRunning (sched m) = cronRunning (cron (sched m)) /\
  entries (cron (sched m))
    = map (fun j => (GetSchedule (deref m j), j)) (Jobs (sched m)) /\
  Forall (fun j => GetSchedule (deref m j) ≠ ""
                   /\ parse (GetSchedule (deref m j)) = None)
         (Jobs (sched m)) /\
  (isRunning (sched m) = true -> Jobs (sched m) ≠ []).

(** The operation a recorded call stands for. *)
Inductive CallKind : Type :=
  | KListImages
  | KPullImage
  | KCreateContainer
  | KFilteredListNetworks
  | KConnectNetwork
  | KStartContainer
  | KInspectContainer
  | KLogs
  | KRemoveContainer.

#[global] Instance CallKind_eq_dec : EqDecision CallKind.
Proof. solve_decision. Defined.

Definition callKind (c : docker.Call) : CallKind :=
  match c with
  | docker.CallListImages _ => KListImages
  | docker.CallPullImage _ => KPullImage
  | docker.CallCreateContainer _ => KCreateContainer
  | docker.CallFilteredListNetworks _ => KFilteredListNetworks
  | docker.CallConnectNetwork _ _ => KConnectNetwork
  | docker.CallStartContainer _ => KStartContainer
  | docker.CallInspectContainer _ => KInspectContainer
  | docker.CallLogs _ => KLogs
  | docker.CallRemoveContainer _ => KRemoveContainer
  end.

(** All calls of [cs] are of the kinds [ks]. *)
Definition only (ks : list CallKind) (cs : list docker.Call) : Prop :=
  Forall (fun c => callKind c ∈ ks) cs.

Section RunJobNotions.

Context {W Middleware : Type}.

(** The calls made between two environments of one run, oldest first. *)
Definition added (env env' : @Env W) : list docker.Call :=
  drop (length (calls env)) (calls env').

(** From [env] to [env'] calls were only added, all of the kinds [ks]. *)
Definition grows (ks : list CallKind) (env env' : @Env W) : Prop :=
  exists new, calls env' = calls env ++ new /\ only ks new.

(** [connected j c networks w w']: from the runtime state [w], connecting
    the container [c] to each of [networks] in turn succeeds and leaves the
    runtime in [w']. *)
Inductive connected (j : @RunJob W Middleware) (c : docker.Container)
    : list docker.Network -> W -> W -> Prop :=
  | connected_nil w : connected j c [] w w
  | connected_cons network rest w w1 w' :
      docker.ConnectNetwork (Client j) (docker.NetworkID network) (docker.ID c) w
        = (None, w1) ->
      connected j c rest w1 w' ->
      connected j c (network :: rest) w w'.

(** The calls that connect [c] to each of [networks], in order. *)
Definition connectCalls (c : docker.Container) (networks : list docker.Network)
  : list docker.Call :=
  map (fun network => docker.CallConnectNetwork (docker.NetworkID network) (docker.ID c))
      networks.

End RunJobNotions.

(** ** cli/config.go *)

Section ConfigModel.

Context {Middleware : Type}.

(** The cron parser, as for [AddJob]. *)
Variable cronParse : string -> option string.

(** What the constructors of package [middlewares] return, which is not in
    the source tree: the values [buildSchedulerMiddlewares] passes to
    [sched.Use], one call each (slack, save, mail), and the values
    [buildMiddlewares] passes to [job.Use] for the job object at an address,
    one call each (overlap, slack, save, mail). *)
Variable schedulerMiddlewares : list Middleware.
Variable middlewaresOf : ptr -> list Middleware.

(** The four maps of [Config], each as the list of its entries in the order
    the [range] loop of [build] visits them (Go leaves that order open).
    The value of an entry is the address of the job object; the scheduler
    reaches it through its embedded [BareJob]. *)
Record Config : Type := mkConfig {
  ExecJobs : list (string * ptr);
  RunJobs : list (string * ptr);
  ServiceJobs : list (string * ptr);
  LocalJobs : list (string * ptr)
}.

(** [job.Name = name] *)
Definition setName (name : string) (job : @BareJob Middleware) : BareJob :=
  {| Schedule := Schedule job; Name := name; Command := Command job;
     jobMiddlewares := jobMiddlewares job; running := running job |}.

(** [job.buildMiddlewares()]: one [job.Use] call for each middleware. *)
Definition buildMiddlewares (j : ptr) (job : @BareJob Middleware) : BareJob :=
  foldl (fun job mw => JobUse [mw] job) job (middlewaresOf j).

(** [config.buildSchedulerMiddlewares(sched)]: one [sched.Use] call for each
    middleware. *)
Definition buildSchedulerMiddlewares (m : @Mem Middleware) : Mem :=
  foldl (fun m mw => SchedulerUse [mw] m) m schedulerMiddlewares.

(** The body of a [for name, job := range ...] loop of [build].  The
    defaults and the docker client are set on fields outside [BareJob]; the
    error of [sched.AddJob] is dropped. *)
Definition buildJob (m : @Mem Middleware) (entry : string * ptr) : Mem :=
  let '(name, j) := entry in
  (AddJob cronParse j
     {| sched := sched m;
        objs := alter (fun job => buildMiddlewares j (setName name job)) j (objs m) |}).2.

(** The jobs of a configuration in the order [build] handles them: exec,
    run, local, service. *)
Definition allJobs (config : Config) : list (string * ptr) :=
  ExecJobs config ++ RunJobs config ++ LocalJobs config ++ ServiceJobs config.

(** [func (config *Config) build()], returning the scheduler or an error,
    on the job objects [o] read from the configuration.  [clientError] is the error of
    [docker.NewClientFromEnv()], if any. *)
Definition build (clientError : option string) (config : Config)
    (o : gmap positive (@BareJob Middleware)) : Mem + error :=
  match clientError with
  | Some msg => inr (ErrExternal msg)
  | None =>
      let m := buildSchedulerMiddlewares {| sched := NewScheduler; objs := o |} in
      let m := foldl buildJob m (ExecJobs config) in
      let m := foldl buildJob m (RunJobs config) in
      let m := foldl buildJob m (LocalJobs config) in
      let m := foldl buildJob m (ServiceJobs config) in
      inl m
  end.

(** A job [build] can register: its schedule is not empty and the cron
    parser accepts it. *)
Definition schedulable (o : gmap positive (@BareJob Middleware)) (j : ptr) : bool :=
  bool_decide (Schedule (o !!! j) ≠ "" /\ cronParse (Schedule (o !!! j)) = None).

End ConfigModel.

(** ** Further scripted inputs *)

Module fixtures.

(** A cron parser that only knows the descriptor [@daily]. *)
Definition strict (spec : string) : option string :=
  if decide (spec = "@daily") then None else Some "unrecognized descriptor".

(** A job object whose schedule that parser rejects, at address 3. *)
Definition mem : @Mem string :=
  {| sched := NewScheduler;
     objs := {[ 3%positive := {| Schedule := "each day"; Name := "report";
                                 Command := "make report";
                                 jobMiddlewares := []; running := 0 |} ]} |}.

(** Runtimes with one answer changed. *)
Definition imagesUnavailable (w : mock.World) : mock.World :=
  mock.mkWorld (inr "daemon not reachable") (mock.pull w) (mock.create w)
    (mock.networks w) (mock.connect w) (mock.start w) (mock.inspections w)
    (mock.idle w) (mock.logs w) (mock.remove w).

Definition createFails (w : mock.World) : mock.World :=
  mock.mkWorld (mock.images w) (mock.pull w) (inr "no such image")
    (mock.networks w) (mock.connect w) (mock.start w) (mock.inspections w)
    (mock.idle w) (mock.logs w) (mock.remove w).

Definition startFails (w : mock.World) : mock.World :=
  mock.mkWorld (mock.images w) (mock.pull w) (mock.create w)
    (mock.networks w) (mock.connect w) (Some "port is already allocated")
    (mock.inspections w) (mock.idle w) (mock.logs w) (mock.remove w).

Definition removeFails (w : mock.World) : mock.World :=
  mock.mkWorld (mock.images w) (mock.pull w) (mock.create w)
    (mock.networks w) (mock.connect w) (mock.start w) (mock.inspections w)
    (mock.idle w) (mock.logs w) (Some "container is in use").

(** The container is seen running once, then the inspection fails. *)
Definition vanishes (w : mock.World) : mock.World :=
  mock.mkWorld (mock.images w) (mock.pull w) (mock.create w)
    (mock.networks w) (mock.connect w) (mock.start w)
    [inl (mock.container mock.alive); inr "no such container"]
    (inr "no such container") (mock.logs w) (mock.remove w).

(** Three networks match the name. *)
Definition threeNetworks (w : mock.World) : mock.World :=
  mock.mkWorld (mock.images w) (mock.pull w) (mock.create w)
    (inl [docker.mkNetwork "net0"; docker.mkNetwork "net1"; docker.mkNetwork "net2"])
    (mock.connect w) (mock.start w) (mock.inspections w)
    (mock.idle w) (mock.logs w) (mock.remove w).

(** A run job on the existing container [c0ffee]. *)
Definition existing (j : @RunJob mock.World unit) : @RunJob mock.World unit :=
  {| Bare := Bare j; Client := Client j; User := User j; TTY := TTY j;
     Delete := Delete j; Pull := Pull j; Image := Image j; Network := Network j;
     Container := "c0ffee"; Volume := Volume j |}.

(** A runtime with a script for the connections: the answers of the next
    calls to [ConnectNetwork], then success; everything else as in [mock]. *)
Definition World : Type := (mock.World * list (option string))%type.

Definition lift {A : Type} (op : mock.World -> A * mock.World) (w : World) : A * World :=
  let (a, w1) := op w.1 in (a, (w1, w.2)).

Definition connectScripted (w : World) : option string * World :=
  match w.2 with
  | [] => (None, w)
  | answer :: rest => (answer, (w.1, rest))
  end.

Definition client : docker.Client World :=
  {| docker.ListImages := fun i => lift (docker.ListImages mock.client i);
     docker.PullImage := fun i => lift (docker.PullImage mock.client i);
     docker.CreateContainer := fun o => lift (docker.CreateContainer mock.client o);
     docker.FilteredListNetworks :=
       fun n => lift (docker.FilteredListNetworks mock.client n);
     docker.ConnectNetwork := fun _ _ => connectScripted;
     docker.StartContainer := fun id => lift (docker.StartContainer mock.client id);
     docker.InspectContainerWithOptions :=
       fun id => lift (docker.InspectContainerWithOptions mock.client id);
     docker.Logs := fun o => lift (docker.Logs mock.client o);
     docker.RemoveContainer := fun id => lift (docker.RemoveContainer mock.client id) |}.

(** The job of [mock], attached to the network [backend], on that client. *)
Definition job : @RunJob World unit :=
  {| Bare := Bare (mock.job "true" "true"); Client := client; User := "root";
     TTY := false; Delete := "true"; Pull := "true"; Image := "busybox";
     Network := "backend"; Container := ""; Volume := [] |}.

Definition env (w : World) : @Env World :=
  {| world := w; calls := []; clock := 0; ctxLogger := [];
     ctxOutput := ""; ctxError := "" |}.

(** A configuration with four jobs: the schedule of [broken] is empty and
    that of [report] is not an expression the parser [strict] knows. *)
Definition scheduled (schedule command : string) : @BareJob string :=
  {| Schedule := schedule; Name := ""; Command := command;
     jobMiddlewares := []; running := 0 |}.

Definition objects : gmap positive (@BareJob string) :=
  {[ 1%positive := scheduled "@daily" "tar cz /data";
     2%positive := scheduled "" "true";
     3%positive := scheduled "each day" "make report";
     4%positive := scheduled "@daily" "rm -rf /tmp/cache" ]}.

Definition config : Config :=
  {| ExecJobs := [("backup", 1%positive)];
     RunJobs := [("report", 3%positive); ("broken", 2%positive)];
     ServiceJobs := [];
     LocalJobs := [("cleanup", 4%positive)] |}.

End fixtures.

(** * Properties *)

(** ** Machine integers *)

Lemma wrap32_int32 (z : Z) : int32 (wrap32 z).
Proof.
  unfold int32, wrap32, wrap, MinInt32, MaxInt32.
  pose proof (Z.mod_pos_bound (z + 2 ^ (32 - 1)) (2 ^ 32)) as H.
  change (2 ^ (32 - 1))%Z with 2147483648%Z in *.
  change (2 ^ 32)%Z with 4294967296%Z in *.
  change (2 ^ 31)%Z with 2147483648%Z.
  lia.
Qed.

Lemma wrap32_id (z : Z) : int32 z -> wrap32 z = z.
Proof.
  unfold int32, wrap32, wrap, MinInt32, MaxInt32.
  change (2 ^ (32 - 1))%Z with 2147483648%Z.
  change (2 ^ 32)%Z with 4294967296%Z.
  change (2 ^ 31)%Z with 2147483648%Z.
  intros H. rewrite Z.mod_small; lia.
Qed.

Lemma wrap32_add_l (a b : Z) : wrap32 (wrap32 a + b) = wrap32 (a + b).
Proof.
  unfold wrap32, wrap.
  change (2 ^ (32 - 1))%Z with 2147483648%Z.
  change (2 ^ 32)%Z with 4294967296%Z.
  f_equal.
  replace ((a + 2147483648) `mod` 4294967296 - 2147483648 + b + 2147483648)%Z
    with ((a + 2147483648) `mod` 4294967296 + b)%Z by lia.
  rewrite Zplus_mod_idemp_l. f_equal. lia.
Qed.

Lemma wrap64_small (z : Z) : (0 <= z < 2 ^ 63)%Z -> wrap64 z = z.
Proof.
  unfold wrap64, wrap.
  change (2 ^ (64 - 1))%Z with 9223372036854775808%Z.
  change (2 ^ 64)%Z with 18446744073709551616%Z.
  change (2 ^ 63)%Z with 9223372036854775808%Z.
  intros H. rewrite Z.mod_small; lia.
Qed.

(** ** The scheduler *)

Section CoreFacts.

Context {Middleware : Type}.
Variable cronParse : string -> option string.

Implicit Types (m : @Mem Middleware) (j : ptr) (job : @BareJob Middleware).

(** C7. [Start] answers [ErrAlreadyStarted] whenever the scheduler runs, also
    with an empty registry; it answers [ErrEmptyScheduler] when the scheduler
    does not run and the registry is empty; [Stop] answers
    [ErrAlreadyStopped] whenever the scheduler does not run, as on a new
    scheduler.  In each case the scheduler and its jobs are left as they
    were. *)
Theorem lifecycle_errors m :
  (IsRunning m = true -> Start m = (Some ErrAlreadyStarted, m)) /\
  (IsRunning m = true -> Jobs (sched m) = [] ->
     Start m = (Some ErrAlreadyStarted, m)) /\
  (IsRunning m = false -> Jobs (sched m) = [] ->
     Start m = (Some ErrEmptyScheduler, m)) /\
  (IsRunning m = false -> Stop m = (Some ErrAlreadyStopped, m)) /\
  (sched m = NewScheduler -> Stop m = (Some ErrAlreadyStopped, m)).
Proof.
  unfold IsRunning, Start, Stop.
  repeat split.
  - intros ->. reflexivity.
  - intros -> _. reflexivity.
  - intros -> ->. reflexivity.
  - intros ->. reflexivity.
  - intros ->. reflexivity.
Qed.

(** C6. [AddJob] of a job whose schedule is the empty string answers
    [ErrEmptySchedule]; the registry, the cron entries, the running flag, the
    global middlewares and the job objects are as before the call (only the
    registration line was logged). *)
Theorem AddJob_empty_schedule j m :
  GetSchedule (deref m j) = "" ->
  fst (AddJob cronParse j m) = Some ErrEmptySchedule /\
  Jobs (sched (snd (AddJob cronParse j m))) = Jobs (sched m) /\
  length (Jobs (sched (snd (AddJob cronParse j m)))) = length (Jobs (sched m)) /\
  cron (sched (snd (AddJob cronParse j m))) = cron (sched m) /\
  isRunning (sched (snd (AddJob cronParse j m))) = isRunning (sched m) /\
  schedMiddlewares (sched (snd (AddJob cronParse j m))) = schedMiddlewares (sched m) /\
  objs (snd (AddJob cronParse j m)) = objs m.
Proof.
  intros Hempty. unfold AddJob.
  destruct (decide (GetSchedule (deref m j) = "")) as [_|Hne]; [|done].
  repeat split.
Qed.

(** *** Merging the global middlewares *)

Lemma occurrences_cons_eq j l : occurrences j (j :: l) = S (occurrences j l).
Proof. unfold occurrences. rewrite filter_cons_True; done. Qed.

Lemma occurrences_cons_ne j x l : x <> j -> occurrences j (x :: l) = occurrences j l.
Proof. intros H. unfold occurrences. rewrite filter_cons_False; done. Qed.


Lemma iter_fmap_id {A : Type} (f : A -> A) (o : option A) : Nat.iter 0 f <$> o = o.
Proof. destruct o; reflexivity. Qed.


(** The loop of [mergeMiddlewares] applies [f] to the object at [j] once
    for each entry of [j] in the registry. *)
Lemma foldl_alter_lookup (f : @BareJob Middleware -> @BareJob Middleware) (l : list ptr) :
  forall (h : gmap positive (@BareJob Middleware)) j,
    foldl (fun h x => alter f x h) h l !! j
    = Nat.iter (occurrences j l) f <$> h !! j.
Proof.
  induction l as [|x l IH]; intros h j; simpl.
  - symmetry. apply iter_fmap_id.
  - rewrite IH. destruct (decide (x = j)) as [->|Hne].
    + rewrite occurrences_cons_eq, lookup_alter_eq.
      destruct (h !! j) as [job|]; simpl; [|reflexivity].
      f_equal. symmetry. apply Nat.iter_succ_r.
    + rewrite occurrences_cons_ne, lookup_alter_ne by done. reflexivity.
Qed.



Lemma step_objs m o j :
  objs (snd (step cronParse m o)) !! j
  = Nat.iter (merges cronParse j [o] m)
             (JobUse (Middlewares (schedMiddlewares (sched m)))) <$> objs m !! j.
Proof.
  destruct o as [x| |]; simpl.
  - rewrite iter_fmap_id.
    unfold AddJob. destruct (decide _); [reflexivity|].
    simpl. unfold cronAddJob. destruct (cronParse _); reflexivity.
  - unfold Start. destruct (isRunning (sched m)); simpl.
    { apply eq_sym, iter_fmap_id. }
    destruct (decide _); simpl.
    { apply eq_sym, iter_fmap_id. }
    rewrite foldl_alter_lookup, Nat.add_0_r. reflexivity.
  - rewrite iter_fmap_id.
    unfold Stop. destruct (isRunning (sched m)); reflexivity.
Qed.






(** *** The running counter *)

Lemma peak_ge (ns : list Notify) : forall c : Z, (c <= peak c ns)%Z.
Proof. induction ns as [|[|] ns IH]; intros c; simpl; lia. Qed.

Lemma notifyAll_paired (ns1 : list Notify) : forall ns2 job (open : nat),
  paired open (ns1 ++ ns2) = true ->
  (Z.of_nat open <= Running job)%Z ->
  (peak (Running job) (ns1 ++ ns2) <= MaxInt32)%Z ->
  (0 <= Running (notifyAll ns1 job))%Z.
Proof.
  induction ns1 as [|n ns1 IH]; intros ns2 job open Hp Hopen Hpeak.
  - simpl. lia.
  - change (notifyAll (n :: ns1) job) with (notifyAll ns1 (notify job n)).
    destruct n; simpl in Hp, Hpeak.
    + pose proof (peak_ge (ns1 ++ ns2) (Running job + 1)) as Hge.
      assert (Running (notify job NStart) = (Running job + 1)%Z) as Hrun.
      { simpl. unfold Running in *. simpl. apply wrap32_id.
        unfold int32, MinInt32, MaxInt32 in *. lia. }
      apply (IH ns2 _ (S open)); rewrite ?Hrun; [done|lia|lia].
    + destruct open as [|open]; [discriminate|].
      pose proof (peak_ge (ns1 ++ ns2) (Running job - 1)) as Hge.
      assert (Running (notify job NStop) = (Running job - 1)%Z) as Hrun.
      { simpl. unfold Running in *. simpl. apply wrap32_id.
        unfold int32, MinInt32, MaxInt32 in *. lia. }
      apply (IH ns2 _ open); rewrite ?Hrun; [done|lia|lia].
Qed.

(** [n] calls of [NotifyStart] in a row add [n] to the counter, modulo the
    int32 range. *)
Lemma NotifyStart_iter job (n : N) :
  int32 (Running job) ->
  Running (N.iter n NotifyStart job) = wrap32 (Running job + Z.of_N n).
Proof.
  intros Hint. induction n as [|n IH] using N.peano_ind.
  - simpl. rewrite Z.add_0_r. symmetry. apply wrap32_id, Hint.
  - rewrite N.iter_succ.
    change (Running (NotifyStart (N.iter n NotifyStart job)))
      with (wrap32 (Running (N.iter n NotifyStart job) + 1)).
    rewrite IH, wrap32_add_l. f_equal. lia.
Qed.

(** C8 (amended). [NotifyStop] after [NotifyStart] leaves [Running()] as it
    was, for every value of the counter; a run of [jobWrapper.Run], which
    notifies the start once and the stop once whatever the chain returns,
    leaves [Running()] as before the run; and along a history in which every
    [NotifyStop] has an earlier [NotifyStart] of its own, a counter that
    starts at 0 or above never goes below 0, as long as it stays within
    int32 (fewer than 2^31 runs in flight). *)
Theorem running_counter_paired :
  (forall job, int32 (Running job) ->
     Running (NotifyStop (NotifyStart job)) = Running job) /\
  (forall (next : Execution -> Mem -> option error * (Execution * Mem)) j m,
     int32 (Running (deref m j)) ->
     (forall e m1, Running <$> objs (next e m1).2.2 !! j = Running <$> objs m1 !! j) ->
     Running (deref (jobWrapper_Run next j m).2 j) = Running (deref m j)) /\
  (forall job ns1 ns2,
     paired 0 (ns1 ++ ns2) = true ->
     (0 <= Running job)%Z ->
     (peak (Running job) (ns1 ++ ns2) <= MaxInt32)%Z ->
     (0 <= Running (notifyAll ns1 job))%Z).
Proof.
  assert (forall job : @BareJob Middleware, int32 (Running job) ->
            Running (NotifyStop (NotifyStart job)) = Running job) as Hpair.
  { intros job Hint. unfold Running, NotifyStop, NotifyStart, AddInt32 in *. simpl.
    rewrite wrap32_add_l.
    replace (running job + 1 + -1)%Z with (running job) by lia.
    apply wrap32_id, Hint. }
  split; [exact Hpair|split].
  - intros next j m Hint Hnext.
    unfold jobWrapper_Run.
    specialize (Hnext NewExecution (jobWrapper_start j m)).
    destruct (next NewExecution (jobWrapper_start j m)) as [err [e1 m2]].
    simpl in Hnext.
    unfold jobWrapper_stop, ContextStop.
    repeat (destruct (decide _)); simpl;
      unfold deref in *; rewrite !lookup_total_alt in *; simpl;
      rewrite lookup_alter_eq;
      rewrite lookup_alter_eq in Hnext;
      destruct (objs m !! j) as [job|]; simpl in *;
      destruct (objs m2 !! j) as [job2|]; simpl in *; try discriminate; try reflexivity;
      injection Hnext as Hnext;
      rewrite <- (Hpair job Hint);
      unfold Running, NotifyStop, AddInt32 in *; simpl; rewrite Hnext; reflexivity.
  - intros job ns1 ns2 Hp H0 Hpeak.
    apply (notifyAll_paired ns1 ns2 job 0); [done|simpl; lia|done].
Qed.

End CoreFacts.

(** C7, on the small scheduler: started twice, started with an empty
    registry, stopped before any start. *)
Lemma lifecycle_errors_sample :
  Start (snd (Start sample.registered))
    = (Some ErrAlreadyStarted, snd (Start sample.registered)) /\
  Start sample.mem = (Some ErrEmptyScheduler, sample.mem) /\
  Stop sample.mem = (Some ErrAlreadyStopped, sample.mem) /\
  Start sample.emptyRunning = (Some ErrAlreadyStarted, sample.emptyRunning).
Proof.
  split; [|split; [|split]]; [| | |
    apply (proj1 (proj2 (lifecycle_errors sample.emptyRunning))); reflexivity].
  - apply (proj1 (lifecycle_errors (snd (Start sample.registered)))). reflexivity.
  - apply (proj1 (proj2 (proj2 (lifecycle_errors sample.mem)))); reflexivity.
  - apply (proj1 (proj2 (proj2 (proj2 (lifecycle_errors sample.mem))))). reflexivity.
Defined.

(** C6, on the small scheduler: registering the job with the empty schedule. *)
Lemma AddJob_empty_schedule_sample :
  fst (AddJob sample.parse 2%positive sample.unscheduled) = Some ErrEmptySchedule /\
  Jobs (sched (snd (AddJob sample.parse 2%positive sample.unscheduled))) = [1%positive].
Proof.
  pose proof (AddJob_empty_schedule sample.parse 2%positive sample.unscheduled eq_refl)
    as (H1 & H2 & _).
  split; [exact H1|]. rewrite H2. reflexivity.
Defined.



(** C8: the claim fails where the int32 counter wraps.  After 2^31 - 1
    calls of [NotifyStart] on a new job, none of them stopped yet, the
    counter is at its highest value; one more [NotifyStart], paired like the
    others, takes it below 0. *)
Lemma running_counter_wraps :
  Running (N.iter 2147483647 NotifyStart (@zeroJob unit)) = 2147483647%Z /\
  Running (N.iter 2147483648 NotifyStart (@zeroJob unit)) = (-2147483648)%Z /\
  paired 0 [NStart] = true /\
  Running (set_running 2147483647 (@zeroJob unit)) = 2147483647%Z /\
  Running (notifyAll [NStart] (set_running 2147483647 (@zeroJob unit))) = (-2147483648)%Z.
Proof.
  assert (int32 (Running (@zeroJob unit))) as Hint by (vm_compute; split; discriminate).
  split; [|split].
  - rewrite NotifyStart_iter by exact Hint. reflexivity.
  - rewrite NotifyStart_iter by exact Hint. reflexivity.
  - vm_compute. repeat split.
Qed.

(** C8 (amended), on the small scheduler: a failing run of the job, and a
    start that is stopped. *)
Lemma running_counter_paired_sample :
  Running (NotifyStop (NotifyStart sample.job)) = Running sample.job /\
  Running (deref (jobWrapper_Run sample.failing 1%positive sample.registered).2 1%positive)
    = Running (deref sample.registered 1%positive) /\
  (0 <= Running (notifyAll [NStart] sample.job))%Z.
Proof.
  pose proof (@running_counter_paired string) as (H1 & H2 & H3).
  split; [|split].
  - apply H1. vm_compute. split; discriminate.
  - apply H2.
    + vm_compute. split; discriminate.
    + intros e m1. reflexivity.
  - apply (H3 sample.job [NStart] [NStop]).
    + reflexivity.
    + vm_compute. discriminate.
    + vm_compute. discriminate.
Defined.

(** ** The run job *)

Section RunJobFacts.

Context {W Middleware : Type}.
Variable GetArgs : string -> list string.

Implicit Types (j : @RunJob W Middleware) (env : @Env W).

Ltac run_M :=
  unfold mbind, M_bind, mret, M_ret, invoke, ctxLog, ctxWarn, logLine,
    writeStreams, Now, Sleep in *; simpl in *.

(** *** Image resolution *)

Lemma pullImage_run j env :
  pullImage j env
  = let r := docker.PullImage (Client j) (Image j) (world env) in
    (ErrPullingImage (Image j) <$> r.1,
     {| world := r.2; calls := calls env ++ [docker.CallPullImage (Image j)];
        clock := clock env; ctxLogger := ctxLogger env;
        ctxOutput := ctxOutput env; ctxError := ctxError env |}).
Proof.
  unfold pullImage. run_M.
  destruct (docker.PullImage (Client j) (Image j) (world env)) as [[msg|] w1];
    reflexivity.
Qed.

Lemma searchLocalImage_run j env :
  searchLocalImage j env
  = let r := docker.ListImages (Client j) (Image j) (world env) in
    (match r.1 with
     | inr msg => Some (ErrExternal msg)
     | inl imgs => if decide (length imgs ≠ 1) then Some ErrLocalImageNotFound else None
     end,
     {| world := r.2; calls := calls env ++ [docker.CallListImages (Image j)];
        clock := clock env; ctxLogger := ctxLogger env;
        ctxOutput := ctxOutput env; ctxError := ctxError env |}).
Proof.
  unfold searchLocalImage. run_M.
  destruct (docker.ListImages (Client j) (Image j) (world env)) as [[imgs|msg] w1];
    simpl; [destruct (decide _)|]; reflexivity.
Qed.

Lemma resolveImage_pull_first j env :
  resolveImage j true env
  = match pullImage j env with
    | (None, env1) => (None, (ctxLog ("Pulled image " +:+ Image j) env1).2)
    | (Some perr, env1) =>
        match searchLocalImage j env1 with
        | (None, env2) => (None, (ctxLog ("Found locally image " +:+ Image j) env2).2)
        | (Some serr, env2) => (Some perr, env2)
        end
    end.
Proof.
  unfold resolveImage. unfold mbind, M_bind, mret, M_ret. simpl.
  destruct (pullImage j env) as [[perr|] env1]; simpl; [|reflexivity].
  destruct (searchLocalImage j env1) as [[serr|] env2]; reflexivity.
Qed.

Lemma resolveImage_local_first j env :
  resolveImage j false env
  = match searchLocalImage j env with
    | (None, env1) => (None, (ctxLog ("Found locally image " +:+ Image j) env1).2)
    | (Some serr, env1) =>
        if decide (serr = ErrLocalImageNotFound) then
          match pullImage j env1 with
          | (None, env2) => (None, (ctxLog ("Pulled image " +:+ Image j) env2).2)
          | (Some perr, env2) => (Some perr, env2)
          end
        else (Some serr, env1)
    end.
Proof.
  unfold resolveImage. unfold mbind, M_bind, mret, M_ret. simpl.
  destruct (searchLocalImage j env) as [[serr|] env1]; simpl; [|reflexivity].
  destruct (decide (serr = ErrLocalImageNotFound)) as [->|Hne].
  - rewrite bool_decide_eq_true_2 by done.
    destruct (pullImage j env1) as [[perr|] env2]; reflexivity.
  - rewrite bool_decide_eq_false_2 by done. reflexivity.
Qed.

(** C1. Image resolution.  With [pull] true and a successful pull the local
    search is not attempted; with [pull] false and a successful local search
    (exactly one match) no pull is attempted; with [pull] false and a local
    search failing with [ErrLocalImageNotFound] a pull follows and decides
    the result; whenever a pull error and a search error are both present
    the pull error is returned.  Resolution is entered only when an image is
    named and no container is given, and its error is the error of [Run]. *)
Theorem resolveImage_order j env :
  (forall w1,
     docker.PullImage (Client j) (Image j) (world env) = (None, w1) ->
     (resolveImage j true env).1 = None /\
     calls (resolveImage j true env).2 = calls env ++ [docker.CallPullImage (Image j)] /\
     world (resolveImage j true env).2 = w1) /\
  (forall imgs w1,
     docker.ListImages (Client j) (Image j) (world env) = (inl imgs, w1) ->
     length imgs = 1 ->
     (resolveImage j false env).1 = None /\
     calls (resolveImage j false env).2 = calls env ++ [docker.CallListImages (Image j)] /\
     world (resolveImage j false env).2 = w1) /\
  (forall imgs w1 r w2,
     docker.ListImages (Client j) (Image j) (world env) = (inl imgs, w1) ->
     length imgs ≠ 1 ->
     docker.PullImage (Client j) (Image j) w1 = (r, w2) ->
     (searchLocalImage j env).1 = Some ErrLocalImageNotFound /\
     (resolveImage j false env).1 = ErrPullingImage (Image j) <$> r /\
     calls (resolveImage j false env).2
       = calls env ++ [docker.CallListImages (Image j); docker.CallPullImage (Image j)] /\
     world (resolveImage j false env).2 = w2) /\
  (forall perr serr,
     (pullImage j env).1 = Some perr ->
     (searchLocalImage j (pullImage j env).2).1 = Some serr ->
     (resolveImage j true env).1 = Some perr) /\
  (forall perr,
     (searchLocalImage j env).1 = Some ErrLocalImageNotFound ->
     (pullImage j (searchLocalImage j env).2).1 = Some perr ->
     (resolveImage j false env).1 = Some perr) /\
  (~ (Image j ≠ "" /\ Container j = "") ->
     calls (acquire GetArgs j env).2
       = calls env ++ [docker.CallInspectContainer (Container j)]) /\
  (forall e,
     Image j ≠ "" /\ Container j = "" ->
     (resolveImage j (ParseBool (Pull j)).1 env).1 = Some e ->
     Run GetArgs j env = (Some e, (resolveImage j (ParseBool (Pull j)).1 env).2)).
Proof.
  split; [|split; [|split; [|split; [|split; [|split]]]]].
  - intros w1 Hpull.
    rewrite resolveImage_pull_first, pullImage_run, Hpull. simpl. done.
  - intros imgs w1 Hlist Hone.
    rewrite resolveImage_local_first, searchLocalImage_run, Hlist. simpl.
    destruct (decide (length imgs ≠ 1)); [done|]. simpl. done.
  - intros imgs w1 r w2 Hlist Hmany Hpull.
    rewrite resolveImage_local_first, searchLocalImage_run, Hlist. simpl.
    destruct (decide (length imgs ≠ 1)); [|done]. simpl.
    rewrite pullImage_run. simpl. rewrite Hpull. simpl.
    destruct r as [msg|]; simpl; rewrite <- ?app_assoc; done.
  - intros perr serr Hpull Hsearch.
    rewrite resolveImage_pull_first.
    destruct (pullImage j env) as [[perr'|] env1]; simpl in *; [|discriminate].
    destruct (searchLocalImage j env1) as [[serr'|] env2]; simpl in *; [|discriminate].
    exact Hpull.
  - intros perr Hsearch Hpull.
    rewrite resolveImage_local_first.
    destruct (searchLocalImage j env) as [[serr'|] env1]; simpl in *; [|discriminate].
    injection Hsearch as ->. simpl.
    destruct (pullImage j env1) as [[perr'|] env2]; simpl in *; [|discriminate].
    exact Hpull.
  - intros Hnot. unfold acquire.
    destruct (decide (Image j ≠ "" ∧ Container j = "")); [done|].
    unfold getContainer. run_M.
    destruct (docker.InspectContainerWithOptions _ _ _) as [[c|msg] w1]; reflexivity.
  - intros e Hin Hres. unfold Run, acquire.
    destruct (decide (Image j ≠ "" ∧ Container j = "")); [|done].
    unfold mbind, M_bind, mret, M_ret.
    destruct (resolveImage j (ParseBool (Pull j)).1 env) as [[e'|] env1];
      simpl in *; [|discriminate].
    congruence.
Qed.

(** *** The watch loop *)

Lemma ceilingPolls_Z : Z.of_nat ceilingPolls = 864000%Z.
Proof. unfold ceilingPolls. rewrite Z2Nat.id; [reflexivity|]. by vm_compute. Qed.

Lemma durations :
  watchDuration = 100000000%Z /\ maxProcessDuration = (864000 * 100000000)%Z.
Proof. split; reflexivity. Qed.

(** While the time slept stays under the ceiling, int64 addition does not
    wrap. *)
Lemma slept_no_wrap (r : Z) :
  (0 <= r <= maxProcessDuration)%Z -> wrap64 (r + watchDuration) = (r + watchDuration)%Z.
Proof.
  intros Hr. apply wrap64_small.
  destruct durations as [-> Hmax]. rewrite Hmax in Hr.
  change (2 ^ 63)%Z with 9223372036854775808%Z. lia.
Qed.

Lemma watchLoop_stops j id k w w1 :
  runsFor j id k w w1 ->
  forall fuel r env c w2,
    world env = w ->
    docker.InspectContainerWithOptions (Client j) id w1 = (inl c, w2) ->
    docker.Running (docker.CState c) = false ->
    k < fuel ->
    (0 <= r)%Z ->
    (r + (Z.of_nat k + 1) * watchDuration <= maxProcessDuration)%Z ->
    watchLoop fuel j id r env
    = (Some (inl (docker.CState c)),
       {| world := w2;
          calls := calls env ++ replicate (S k) (docker.CallInspectContainer id);
          clock := (clock env + (Z.of_nat k + 1) * watchDuration)%Z;
          ctxLogger := ctxLogger env; ctxOutput := ctxOutput env;
          ctxError := ctxError env |}).
Proof.
  pose proof (proj1 durations) as Hwd.
  induction 1 as [w|k w w1 w' c' Hinspect Hrunning Hruns IH];
    intros fuel r env c w2 Hw Hlast Hstopped Hfuel Hr Hroom;
    (destruct fuel as [|fuel]; [lia|]); simpl; run_M.
  - rewrite slept_no_wrap by lia.
    destruct (decide (r + watchDuration > maxProcessDuration)%Z); [lia|].
    simpl. rewrite Hw, Hlast, Hstopped. simpl. f_equal; f_equal; lia.
  - rewrite slept_no_wrap by lia.
    destruct (decide (r + watchDuration > maxProcessDuration)%Z); [lia|].
    simpl. rewrite Hw, Hinspect, Hrunning. simpl.
    rewrite (IH fuel _ _ c w2); simpl; try done; try lia.
    f_equal. f_equal; [|lia].
    rewrite <- app_assoc. reflexivity.
Qed.

Lemma watchLoop_ceiling j id k w w' :
  runsFor j id k w w' ->
  forall fuel r env,
    world env = w ->
    k < fuel ->
    (0 <= r)%Z ->
    (r + Z.of_nat k * watchDuration <= maxProcessDuration)%Z ->
    (maxProcessDuration < r + (Z.of_nat k + 1) * watchDuration)%Z ->
    watchLoop fuel j id r env
    = (Some (inr ErrMaxTimeRunning),
       {| world := w';
          calls := calls env ++ replicate k (docker.CallInspectContainer id);
          clock := (clock env + (Z.of_nat k + 1) * watchDuration)%Z;
          ctxLogger := ctxLogger env; ctxOutput := ctxOutput env;
          ctxError := ctxError env |}).
Proof.
  pose proof (proj1 durations) as Hwd.
  induction 1 as [w|k w w1 w' c' Hinspect Hrunning Hruns IH];
    intros fuel r env Hw Hfuel Hr Hunder Hover;
    (destruct fuel as [|fuel]; [lia|]); simpl; run_M.
  - rewrite slept_no_wrap by lia.
    destruct (decide (r + watchDuration > maxProcessDuration)%Z); [|lia].
    simpl. rewrite app_nil_r, <- Hw. f_equal; f_equal; lia.
  - rewrite slept_no_wrap by lia.
    destruct (decide (r + watchDuration > maxProcessDuration)%Z); [lia|].
    simpl. rewrite Hw, Hinspect, Hrunning. simpl.
    rewrite IH; simpl; try done; try lia.
    f_equal. f_equal; [|lia].
    rewrite <- app_assoc. reflexivity.
Qed.

(** The loop returns: once the time slept can pass the ceiling within the
    iterations left, it leaves with a state or an error. *)
Lemma watchLoop_enough j id fuel : forall r env,
  (0 <= r <= maxProcessDuration)%Z ->
  (maxProcessDuration < r + Z.of_nat fuel * watchDuration)%Z ->
  (watchLoop fuel j id r env).1 ≠ None.
Proof.
  pose proof (proj1 durations) as Hwd.
  induction fuel as [|fuel IH]; intros r env Hr Hfuel; [lia|].
  simpl; run_M.
  rewrite slept_no_wrap by lia.
  destruct (decide (r + watchDuration > maxProcessDuration)%Z); [done|].
  simpl.
  destruct (docker.InspectContainerWithOptions _ _ _) as [[c|msg] w1]; [|done].
  destruct (docker.Running (docker.CState c)); simpl; [|done].
  apply IH; simpl; lia.
Qed.

Lemma watchContainer_returns j id env :
  (watchLoop maxPolls j id 0 env).1 ≠ None.
Proof.
  pose proof ceilingPolls_Z as Hpolls.
  destruct durations as [Hwd Hmax].
  apply watchLoop_enough.
  - rewrite Hmax. lia.
  - unfold maxPolls. rewrite Nat2Z.inj_succ, Hpolls, Hwd, Hmax. lia.
Qed.

(** C2. The watch loop and the exit code.  When the container is seen
    running [k] times and then stopped, under the ceiling, the exit code
    decides: 0 gives no error, -1 gives [ErrUnexpected], any other code an
    error carrying it.  When the container is seen running at every
    inspection under the ceiling (864000 of them), the result is
    [ErrMaxTimeRunning], at the first check past the ceiling (24h and one
    sleep) and without another inspection.  The loop always returns. *)
Theorem watchContainer_classifies j id env :
  (forall k w1 c w2,
     runsFor j id k (world env) w1 ->
     k < ceilingPolls ->
     docker.InspectContainerWithOptions (Client j) id w1 = (inl c, w2) ->
     docker.Running (docker.CState c) = false ->
     calls (watchContainer j id env).2
       = calls env ++ replicate (S k) (docker.CallInspectContainer id) /\
     world (watchContainer j id env).2 = w2 /\
     (docker.ExitCode (docker.CState c) = 0%Z ->
        (watchContainer j id env).1 = None) /\
     (docker.ExitCode (docker.CState c) = (-1)%Z ->
        (watchContainer j id env).1 = Some ErrUnexpected) /\
     (docker.ExitCode (docker.CState c) ≠ 0%Z ->
      docker.ExitCode (docker.CState c) ≠ (-1)%Z ->
        (watchContainer j id env).1
        = Some (ErrNonZeroExit (docker.ExitCode (docker.CState c))))) /\
  (forall w',
     runsFor j id ceilingPolls (world env) w' ->
     watchContainer j id env
     = (Some ErrMaxTimeRunning,
        {| world := w';
           calls := calls env ++ replicate ceilingPolls (docker.CallInspectContainer id);
           clock := (clock env + maxProcessDuration + watchDuration)%Z;
           ctxLogger := ctxLogger env; ctxOutput := ctxOutput env;
           ctxError := ctxError env |})) /\
  Z.of_nat ceilingPolls = 864000%Z /\
  (watchLoop maxPolls j id 0 env).1 ≠ None.
Proof.
  pose proof ceilingPolls_Z as Hpolls.
  destruct durations as [Hwd Hmax].
  split; [|split; [|split; [exact Hpolls|apply watchContainer_returns]]].
  - intros k w1 c w2 Hruns Hk Hlast Hstopped.
    assert (k < maxPolls) as Hfuel by (unfold maxPolls; apply Nat.lt_lt_succ_r, Hk).
    assert (0 + (Z.of_nat k + 1) * watchDuration <= maxProcessDuration)%Z as Hroom.
    { apply Nat2Z.inj_lt in Hk. rewrite Hpolls in Hk. rewrite Hwd, Hmax. lia. }
    unfold watchContainer. unfold mbind, M_bind, mret, M_ret.
    rewrite (watchLoop_stops j id k (world env) w1 Hruns maxPolls 0 env c w2
               eq_refl Hlast Hstopped Hfuel (Z.le_refl 0) Hroom).
    unfold exitError. cbn [fst snd world calls].
    split; [reflexivity|split; [reflexivity|split; [|split]]].
    + intros ->. reflexivity.
    + intros ->. reflexivity.
    + intros H0 H1.
      destruct (decide (docker.ExitCode (docker.CState c) = 0%Z)) as [E|_];
        [contradiction|].
      destruct (decide (docker.ExitCode (docker.CState c) = (-1)%Z)) as [E|_];
        [contradiction|].
      reflexivity.
  - intros w' Hruns.
    assert (ceilingPolls < maxPolls) as Hfuel by (unfold maxPolls; apply Nat.lt_succ_diag_r).
    assert (0 + Z.of_nat ceilingPolls * watchDuration <= maxProcessDuration)%Z as Hunder
      by (rewrite Hpolls, Hwd, Hmax; lia).
    assert (maxProcessDuration < 0 + (Z.of_nat ceilingPolls + 1) * watchDuration)%Z as Hover
      by (rewrite Hpolls, Hwd, Hmax; lia).
    unfold watchContainer. unfold mbind, M_bind, mret, M_ret.
    rewrite (watchLoop_ceiling j id ceilingPolls (world env) w' Hruns maxPolls 0 env
               eq_refl Hfuel (Z.le_refl 0) Hunder Hover).
    cbv beta iota.
    replace ((Z.of_nat ceilingPolls + 1) * watchDuration)%Z
      with (maxProcessDuration + watchDuration)%Z
      by (rewrite Hpolls, Hwd, Hmax; lia).
    rewrite Z.add_assoc. reflexivity.
Qed.

(** *** After the start *)

Lemma Run_started j env c env1 env2 :
  acquire GetArgs j env = (inl c, env1) ->
  startContainer j c env1 = (None, env2) ->
  Run GetArgs j env = finish j c (clock env1) env2.
Proof.
  intros Hacq Hstart. unfold Run. unfold mbind at 1, M_bind at 1.
  rewrite Hacq. unfold Now. unfold mbind at 1, M_bind at 1.
  unfold mbind at 1, M_bind at 1. rewrite Hstart. reflexivity.
Qed.

Lemma deleteContainer_logger j id env :
  ctxLogger (deleteContainer j id env).2 = ctxLogger env.
Proof.
  unfold deleteContainer. destruct (negb _); [reflexivity|]. run_M.
  destruct (docker.RemoveContainer _ _ _) as [r w1]. reflexivity.
Qed.

(** What [finish] does once the watch is over. *)
Lemma finish_run j c t env :
  let watch := watchContainer j (docker.ID c) env in
  (watch.1 = Some ErrUnexpected -> finish j c t env = watch) /\
  (watch.1 ≠ Some ErrUnexpected ->
     (finish j c t env).1 = watch.1 /\
     (exists rest,
        calls (finish j c t env).2
        = calls watch.2 ++ docker.CallLogs (logsOptions j c t) :: rest) /\
     (forall msg,
        (docker.Logs (Client j) (logsOptions j c t) (world watch.2)).1.2 = Some msg ->
        WarnError "failed to fetch container logs: " (ErrExternal msg)
          ∈ ctxLogger (finish j c t env).2)).
Proof.
  cbv zeta. unfold finish. unfold mbind, M_bind, mret, M_ret. cbv beta.
  destruct (watchContainer j (docker.ID c) env) as [err env1]. cbn [fst snd].
  split; intros Herr; (destruct (decide (err = Some ErrUnexpected)); [try done|try done]).
  unfold invoke.
  destruct (docker.Logs (Client j) (logsOptions j c t) (world env1))
    as [[[out errout] logsErr] w1]. cbn [fst snd].
  unfold deleteContainer, writeStreams, ctxWarn, logLine, invoke.
  unfold mbind, M_bind, mret, M_ret.
  destruct logsErr as [msg|]; destruct (decide (Container j = ""));
    destruct (negb (ParseBool (Delete j)).1); simpl;
    try (destruct (docker.RemoveContainer _ _ _) as [[dmsg|] w2]; simpl);
    (split; [reflexivity|split; [eexists; rewrite <- ?app_assoc; reflexivity|]]);
    intros msg' Hmsg; try discriminate; injection Hmsg as <-; set_solver.
Qed.


(** C4. The value [Run] returns once the container was started is the
    error of the watch (nil for exit code 0), whatever the fetching of the
    logs and the removal of the container do. *)
Theorem Run_returns_watch_error j :
  (forall c t env,
     (finish j c t env).1 = (watchContainer j (docker.ID c) env).1) /\
  (forall env c env1 env2,
     acquire GetArgs j env = (inl c, env1) ->
     startContainer j c env1 = (None, env2) ->
     (Run GetArgs j env).1 = (watchContainer j (docker.ID c) env2).1) /\
  (forall env c env1 env2 s,
     acquire GetArgs j env = (inl c, env1) ->
     startContainer j c env1 = (None, env2) ->
     (watchLoop maxPolls j (docker.ID c) 0 env2).1 = Some (inl s) ->
     docker.ExitCode s = 0%Z ->
     (Run GetArgs j env).1 = None).
Proof.
  assert (forall c t env,
            (finish j c t env).1 = (watchContainer j (docker.ID c) env).1) as Hfinish.
  { intros c t env. pose proof (finish_run j c t env) as [Hunexp Hother].
    destruct (decide ((watchContainer j (docker.ID c) env).1 = Some ErrUnexpected)) as [H|H].
    - rewrite (Hunexp H). reflexivity.
    - apply (Hother H). }
  split; [exact Hfinish|split].
  - intros env c env1 env2 Hacq Hstart.
    rewrite (Run_started j env c env1 env2 Hacq Hstart). apply Hfinish.
  - intros env c env1 env2 s Hacq Hstart Hloop Hzero.
    rewrite (Run_started j env c env1 env2 Hacq Hstart), Hfinish.
    unfold watchContainer. unfold mbind, M_bind, mret, M_ret.
    destruct (watchLoop maxPolls j (docker.ID c) 0 env2) as [r env3].
    simpl in Hloop. subst r. simpl. unfold exitError. rewrite Hzero. reflexivity.
Qed.

(** *** The policy flags *)

Lemma ParseBool_error_false (str : string) :
  (ParseBool str).2 ≠ None -> (ParseBool str).1 = false.
Proof.
  unfold ParseBool. repeat case_bool_decide; simpl; done.
Qed.

Lemma watchLoop_withPull p j id fuel : forall r env,
  watchLoop fuel (withPull p j) id r env = watchLoop fuel j id r env.
Proof.
  induction fuel as [|fuel IH]; intros r env; [reflexivity|].
  simpl. unfold mbind, M_bind, mret, M_ret, Sleep, invoke. simpl.
  destruct (decide _); [reflexivity|].
  destruct (docker.InspectContainerWithOptions _ _ _) as [[c|msg] w1]; [|reflexivity].
  destruct (negb _); [reflexivity|]. apply IH.
Qed.

Lemma finish_withPull p j c t env :
  finish (withPull p j) c t env = finish j c t env.
Proof.
  unfold finish, watchContainer. unfold mbind, M_bind, mret, M_ret. cbv beta.
  rewrite watchLoop_withPull.
  destruct (watchLoop maxPolls j (docker.ID c) 0 env) as [r env1].
  reflexivity.
Qed.

Lemma connectNetworks_withPull p j c networks : forall env,
  connectNetworks (withPull p j) c networks env = connectNetworks j c networks env.
Proof.
  induction networks as [|network rest IH]; intros env; [reflexivity|].
  simpl. unfold mbind, M_bind, mret, M_ret, invoke. simpl.
  destruct (docker.ConnectNetwork _ _ _ _) as [[msg|] w1]; [reflexivity|]. apply IH.
Qed.

Lemma buildContainer_withPull p j env :
  buildContainer GetArgs (withPull p j) env = buildContainer GetArgs j env.
Proof.
  unfold buildContainer. unfold mbind, M_bind, mret, M_ret, invoke. simpl.
  change (createOptions GetArgs (withPull p j)) with (createOptions GetArgs j).
  destruct (docker.CreateContainer _ _ _) as [[c|msg] w1]; [|reflexivity].
  destruct (decide _); [|reflexivity]. simpl.
  destruct (docker.FilteredListNetworks _ _ _) as [[networks|msg] w2]; [|reflexivity].
  rewrite connectNetworks_withPull. reflexivity.
Qed.

Lemma acquire_unparsable j env :
  (ParseBool (Pull j)).2 ≠ None ->
  acquire GetArgs j env = acquire GetArgs (withPull "false" j) env.
Proof.
  intros Herr. unfold acquire.
  rewrite (ParseBool_error_false _ Herr).
  change (ParseBool (Pull (withPull "false" j))).1 with false.
  change (Image (withPull "false" j)) with (Image j).
  change (Container (withPull "false" j)) with (Container j).
  destruct (decide _); [|reflexivity].
  unfold mbind, M_bind, mret, M_ret.
  change (resolveImage (withPull "false" j) false env) with (resolveImage j false env).
  destruct (resolveImage j false env) as [[e|] env1]; [reflexivity|].
  symmetry. apply buildContainer_withPull.
Qed.

(** C9. A [Pull] or [Delete] value that [strconv.ParseBool] does not accept,
    the empty string among them, counts as false: the parse error is
    dropped.  With such a [Delete] value [deleteContainer] returns nil and
    makes no call to the client; with such a [Pull] value [Run] does what it
    does for the value "false". *)
Theorem unparsable_flag_is_false :
  (forall str, (ParseBool str).2 ≠ None -> (ParseBool str).1 = false) /\
  (ParseBool "").2 ≠ None /\
  (forall j id env,
     (ParseBool (Delete j)).2 ≠ None -> deleteContainer j id env = (None, env)) /\
  (forall j env,
     (ParseBool (Pull j)).2 ≠ None ->
     Run GetArgs j env = Run GetArgs (withPull "false" j) env).
Proof.
  split; [exact ParseBool_error_false|split; [by vm_compute|split]].
  - intros j id env Herr. unfold deleteContainer.
    rewrite (ParseBool_error_false _ Herr). reflexivity.
  - intros j env Herr.
    unfold Run. unfold mbind, M_bind, mret, M_ret. cbv beta.
    rewrite <- (acquire_unparsable j env Herr).
    destruct (acquire GetArgs j env) as [[c|e] env1]; [|reflexivity].
    unfold Now.
    change (startContainer (withPull "false" j) c env1) with (startContainer j c env1).
    destruct (startContainer j c env1) as [[e|] env2]; [reflexivity|].
    symmetry. apply finish_withPull.
Qed.

(** *** Building the container *)

Lemma connectNetworks_run j c networks : forall env,
  ctxLogger (connectNetworks j c networks env).2 = ctxLogger env /\
  (forall e, (connectNetworks j c networks env).1 = Some e ->
     exists msg network,
       e = ErrConnectingNetwork msg /\
       last (calls (connectNetworks j c networks env).2)
       = Some (docker.CallConnectNetwork network (docker.ID c))).
Proof.
  induction networks as [|network rest IH]; intros env.
  - split; [reflexivity|]. intros e He. discriminate.
  - simpl. unfold mbind, M_bind, mret, M_ret, invoke. simpl.
    destruct (docker.ConnectNetwork _ _ _ _) as [[msg|] w1].
    + split; [reflexivity|]. simpl. intros e [= <-].
      exists msg, (docker.NetworkID network). split; [reflexivity|].
      apply last_snoc.
    + match goal with
      | |- context [connectNetworks j c rest ?e0] => destruct (IH e0) as [Hlog Hconn]
      end.
      split; [exact Hlog|exact Hconn].
Qed.

(** C10. With a network configured, a failure to list the networks is
    dropped by [buildContainer]: it returns the container just created and no
    error, connects it to no network and warns of nothing.  Once the
    container is created, the only error [buildContainer] returns is that of
    a failed connection to a network; [buildContainer] never logs. *)
Theorem network_listing_failure_ignored j env :
  (forall c w1 msg w2,
     Network j ≠ "" ->
     docker.CreateContainer (Client j) (createOptions GetArgs j) (world env) = (inl c, w1) ->
     docker.FilteredListNetworks (Client j) (Network j) w1 = (inr msg, w2) ->
     buildContainer GetArgs j env
     = (inl c,
        {| world := w2;
           calls := calls env ++ [docker.CallCreateContainer (createOptions GetArgs j);
                                  docker.CallFilteredListNetworks (Network j)];
           clock := clock env; ctxLogger := ctxLogger env;
           ctxOutput := ctxOutput env; ctxError := ctxError env |})) /\
  (forall c w1 e,
     docker.CreateContainer (Client j) (createOptions GetArgs j) (world env) = (inl c, w1) ->
     (buildContainer GetArgs j env).1 = inr e ->
     Network j ≠ "" /\
     exists msg network,
       e = ErrConnectingNetwork msg /\
       last (calls (buildContainer GetArgs j env).2)
       = Some (docker.CallConnectNetwork network (docker.ID c))) /\
  ctxLogger (buildContainer GetArgs j env).2 = ctxLogger env.
Proof.
  split; [|split].
  - intros c w1 msg w2 Hnet Hcreate Hlist.
    unfold buildContainer. unfold mbind, M_bind, mret, M_ret, invoke. simpl.
    rewrite Hcreate. destruct (decide (Network j ≠ "")); [|done]. simpl.
    rewrite Hlist. rewrite <- app_assoc. reflexivity.
  - intros c w1 e Hcreate.
    unfold buildContainer. unfold mbind, M_bind, mret, M_ret, invoke. simpl.
    rewrite Hcreate. destruct (decide (Network j ≠ "")) as [Hnet|]; [|discriminate].
    simpl. destruct (docker.FilteredListNetworks _ _ _) as [[networks|msg] w2];
      [|discriminate].
    match goal with
    | |- context [connectNetworks j c networks ?e0] =>
        pose proof (connectNetworks_run j c networks e0) as [_ Hconn];
        destruct (connectNetworks j c networks e0) as [[e'|] env2]
    end; [|discriminate].
    simpl. intros [= <-]. split; [exact Hnet|]. apply Hconn. reflexivity.
  - unfold buildContainer. unfold mbind, M_bind, mret, M_ret, invoke. simpl.
    destruct (docker.CreateContainer _ _ _) as [[c|msg] w1]; [|reflexivity].
    destruct (decide (Network j ≠ "")); [|reflexivity]. simpl.
    destruct (docker.FilteredListNetworks _ _ _) as [[networks|msg] w2]; [|reflexivity].
    match goal with
    | |- context [connectNetworks j c networks ?e0] =>
        pose proof (connectNetworks_run j c networks e0) as [Hlog _];
        destruct (connectNetworks j c networks e0) as [[e'|] env2]
    end; simpl in *; exact Hlog.
Qed.

End RunJobFacts.

(** ** The theorems on the scripted runtime *)

(** C1, on the scripted runtime: the pull comes first and succeeds; the
    local image is found; the local image is missing and the pull is denied;
    the pull is denied and the local image is missing. *)
Lemma resolveImage_order_sample :
  ((resolveImage (mock.job "true" "true") true (mock.env (mock.runtime 0))).1 = None /\
   calls (resolveImage (mock.job "true" "true") true (mock.env (mock.runtime 0))).2
   = [docker.CallPullImage "busybox"]) /\
  ((resolveImage (mock.job "false" "true") false (mock.env (mock.runtime 0))).1 = None /\
   calls (resolveImage (mock.job "false" "true") false (mock.env (mock.runtime 0))).2
   = [docker.CallListImages "busybox"]) /\
  ((resolveImage (mock.job "false" "true") false
      (mock.env (mock.imageMissing (mock.pullDenied (mock.runtime 0))))).1
   = Some (ErrPullingImage "busybox" "pull access denied") /\
   calls (resolveImage (mock.job "false" "true") false
            (mock.env (mock.imageMissing (mock.pullDenied (mock.runtime 0))))).2
   = [docker.CallListImages "busybox"; docker.CallPullImage "busybox"]) /\
  (resolveImage (mock.job "true" "true") true
     (mock.env (mock.imageMissing (mock.pullDenied (mock.runtime 0))))).1
  = Some (ErrPullingImage "busybox" "pull access denied").
Proof.
  split; [|split; [|split]].
  - destruct (proj1 (resolveImage_order mock.getArgs (mock.job "true" "true")
                       (mock.env (mock.runtime 0))) (mock.runtime 0) eq_refl)
      as (H1 & H2 & _).
    split; [exact H1|exact H2].
  - destruct (proj1 (proj2 (resolveImage_order mock.getArgs (mock.job "false" "true")
                              (mock.env (mock.runtime 0))))
                _ (mock.runtime 0) eq_refl eq_refl)
      as (H1 & H2 & _).
    split; [exact H1|exact H2].
  - destruct (proj1 (proj2 (proj2 (resolveImage_order mock.getArgs (mock.job "false" "true")
                (mock.env (mock.imageMissing (mock.pullDenied (mock.runtime 0)))))))
                [] (mock.imageMissing (mock.pullDenied (mock.runtime 0)))
                (Some "pull access denied")
                (mock.imageMissing (mock.pullDenied (mock.runtime 0)))
                eq_refl ltac:(discriminate) eq_refl)
      as (_ & H1 & H2 & _).
    split; [exact H1|exact H2].
  - apply (proj1 (proj2 (proj2 (proj2 (resolveImage_order mock.getArgs (mock.job "true" "true")
             (mock.env (mock.imageMissing (mock.pullDenied (mock.runtime 0))))))))
             _ ErrLocalImageNotFound); reflexivity.
Defined.

Lemma mock_runs_forever (j : @RunJob mock.World unit) (id : string) (n : nat) :
  Client j = mock.client -> runsFor j id n mock.forever mock.forever.
Proof.
  intros Hclient. induction n as [|n IH]; [constructor|].
  apply (runsFor_S j id n mock.forever mock.forever mock.forever (mock.container mock.alive));
    [rewrite Hclient; reflexivity|reflexivity|exact IH].
Qed.

Lemma one_under_ceiling : 1 < ceilingPolls.
Proof. apply Nat2Z.inj_lt. rewrite ceilingPolls_Z. lia. Qed.

Lemma mock_runs_once (code : Z) :
  runsFor (mock.job "true" "true") "c0ffee" 1 (mock.runtime code)
    (mock.inspect (mock.runtime code)).2.
Proof.
  apply (runsFor_S _ _ 0 (mock.runtime code) (mock.inspect (mock.runtime code)).2
           (mock.inspect (mock.runtime code)).2 (mock.container mock.alive));
    [reflexivity|reflexivity|].
  constructor.
Qed.

(** C2, on the scripted runtime: a container seen running once and then
    stopped with code 0, -1 or 7, and a container that never stops. *)
Lemma watchContainer_classifies_sample :
  (watchContainer (mock.job "true" "true") "c0ffee" (mock.env (mock.runtime 0))).1 = None /\
  (watchContainer (mock.job "true" "true") "c0ffee" (mock.env (mock.runtime (-1)))).1
    = Some ErrUnexpected /\
  (watchContainer (mock.job "true" "true") "c0ffee" (mock.env (mock.runtime 7))).1
    = Some (ErrNonZeroExit 7) /\
  (watchContainer (mock.job "true" "true") "c0ffee" (mock.env mock.forever)).1
    = Some ErrMaxTimeRunning.
Proof.
  split; [|split; [|split]].
  - destruct (proj1 (watchContainer_classifies (mock.job "true" "true") "c0ffee"
                       (mock.env (mock.runtime 0)))
                1 _ (mock.container (mock.exited 0)) _
                (mock_runs_once 0) one_under_ceiling eq_refl eq_refl)
      as (_ & _ & H & _).
    apply H. reflexivity.
  - destruct (proj1 (watchContainer_classifies (mock.job "true" "true") "c0ffee"
                       (mock.env (mock.runtime (-1))))
                1 _ (mock.container (mock.exited (-1))) _
                (mock_runs_once (-1)) one_under_ceiling eq_refl eq_refl)
      as (_ & _ & _ & H & _).
    apply H. reflexivity.
  - destruct (proj1 (watchContainer_classifies (mock.job "true" "true") "c0ffee"
                       (mock.env (mock.runtime 7)))
                1 _ (mock.container (mock.exited 7)) _
                (mock_runs_once 7) one_under_ceiling eq_refl eq_refl)
      as (_ & _ & _ & _ & H).
    apply H; discriminate.
  - rewrite (proj1 (proj2 (watchContainer_classifies (mock.job "true" "true") "c0ffee"
                             (mock.env mock.forever)))
               mock.forever
               (mock_runs_forever (mock.job "true" "true") "c0ffee" ceilingPolls eq_refl)).
    reflexivity.
Defined.



(** C4, on the scripted runtime: the logs cannot be fetched, and [Run]
    returns the error of the watch. *)
Lemma Run_returns_watch_error_sample :
  (Run mock.getArgs (mock.job "false" "true") (mock.env (mock.logsFail (mock.runtime 7)))).1
  = (watchContainer (mock.job "false" "true") "c0ffee"
       (startContainer (mock.job "false" "true") (mock.container mock.alive)
          (acquire mock.getArgs (mock.job "false" "true")
             (mock.env (mock.logsFail (mock.runtime 7)))).2).2).1.
Proof.
  apply (proj1 (proj2 (Run_returns_watch_error mock.getArgs (mock.job "false" "true")))
           (mock.env (mock.logsFail (mock.runtime 7)))
           (mock.container mock.alive)
           (acquire mock.getArgs (mock.job "false" "true")
              (mock.env (mock.logsFail (mock.runtime 7)))).2
           _ eq_refl eq_refl).
Defined.

(** C9, on the scripted runtime: [Delete] and [Pull] left empty. *)
Lemma unparsable_flag_is_false_sample :
  (ParseBool "yes").1 = false /\
  deleteContainer (mock.job "true" "") "c0ffee" (mock.env (mock.runtime 0))
    = (None, mock.env (mock.runtime 0)) /\
  Run mock.getArgs (mock.job "" "true") (mock.env (mock.runtime 0))
    = Run mock.getArgs (withPull "false" (mock.job "" "true")) (mock.env (mock.runtime 0)).
Proof.
  pose proof (@unparsable_flag_is_false mock.World unit mock.getArgs) as (H1 & _ & H3 & H4).
  split; [|split].
  - apply H1. vm_compute. discriminate.
  - apply H3. vm_compute. discriminate.
  - apply H4. vm_compute. discriminate.
Defined.

(** C10, on the scripted runtime: the networks cannot be listed; and the
    connection to the network fails. *)
Lemma network_listing_failure_ignored_sample :
  (buildContainer mock.getArgs (mock.networked (mock.job "true" "true"))
     (mock.env (mock.listingFails (mock.runtime 0)))).1
    = inl (mock.container mock.alive) /\
  calls (buildContainer mock.getArgs (mock.networked (mock.job "true" "true"))
           (mock.env (mock.listingFails (mock.runtime 0)))).2
    = [docker.CallCreateContainer
         (createOptions mock.getArgs (mock.networked (mock.job "true" "true")));
       docker.CallFilteredListNetworks "backend"] /\
  exists msg network,
    ErrConnectingNetwork "network is gone" = ErrConnectingNetwork msg /\
    last (calls (buildContainer mock.getArgs (mock.networked (mock.job "true" "true"))
                   (mock.env (mock.connectFails (mock.runtime 0)))).2)
    = Some (docker.CallConnectNetwork network "c0ffee").
Proof.
  split; [|split].
  - rewrite (proj1 (network_listing_failure_ignored mock.getArgs
                      (mock.networked (mock.job "true" "true"))
                      (mock.env (mock.listingFails (mock.runtime 0))))
               (mock.container mock.alive) (mock.listingFails (mock.runtime 0))
               "daemon unreachable" (mock.listingFails (mock.runtime 0))
               ltac:(discriminate) eq_refl eq_refl).
    reflexivity.
  - rewrite (proj1 (network_listing_failure_ignored mock.getArgs
                      (mock.networked (mock.job "true" "true"))
                      (mock.env (mock.listingFails (mock.runtime 0))))
               (mock.container mock.alive) (mock.listingFails (mock.runtime 0))
               "daemon unreachable" (mock.listingFails (mock.runtime 0))
               ltac:(discriminate) eq_refl eq_refl).
    reflexivity.
  - apply (proj1 (proj2 (network_listing_failure_ignored mock.getArgs
                           (mock.networked (mock.job "true" "true"))
                           (mock.env (mock.connectFails (mock.runtime 0)))))
             (mock.container mock.alive) (mock.connectFails (mock.runtime 0))
             (ErrConnectingNetwork "network is gone") eq_refl eq_refl).
Defined.

(** * Further properties *)

(** ** The scheduler *)

Section SchedulerFacts.

Context {Middleware : Type}.
Variable cronParse : string -> option string.

Implicit Types (m : @Mem Middleware) (j : ptr).

(** X1. [AddJob] of a job whose schedule is not empty and is accepted by the
    cron parser returns nil, appends the job at the end of the registry and
    adds one cron entry for it under its schedule; the flags, the global
    middlewares and the job objects are untouched. *)
Theorem AddJob_registers j m :
  GetSchedule (deref m j) ≠ "" ->
  cronParse (GetSchedule (deref m j)) = None ->
  (AddJob cronParse j m).1 = None /\
  Jobs (sched (AddJob cronParse j m).2) = Jobs (sched m) ++ [j] /\
  entries (cron (sched (AddJob cronParse j m).2))
    = entries (cron (sched m)) ++ [(GetSchedule (deref m j), j)] /\
  cronRunning (cron (sched (AddJob cronParse j m).2)) = cronRunning (cron (sched m)) /\
  isRunning (sched (AddJob cronParse j m).2) = isRunning (sched m) /\
  schedMiddlewares (sched (AddJob cronParse j m).2) = schedMiddlewares (sched m) /\
  objs (AddJob cronParse j m).2 = objs m.
Proof.
  intros Hne Hparse. unfold AddJob.
  destruct (decide (GetSchedule (deref m j) = "")); [done|].
  simpl. unfold cronAddJob. rewrite Hparse. simpl. done.
Qed.

(** X2. [AddJob] of a job whose schedule the cron parser rejects returns the
    parser's error; the registry, the cron entries and the job objects are
    as before. *)
Theorem AddJob_rejected_by_cron j m msg :
  GetSchedule (deref m j) ≠ "" ->
  cronParse (GetSchedule (deref m j)) = Some msg ->
  (AddJob cronParse j m).1 = Some (ErrExternal msg) /\
  Jobs (sched (AddJob cronParse j m).2) = Jobs (sched m) /\
  cron (sched (AddJob cronParse j m).2) = cron (sched m) /\
  isRunning (sched (AddJob cronParse j m).2) = isRunning (sched m) /\
  objs (AddJob cronParse j m).2 = objs m.
Proof.
  intros Hne Hparse. unfold AddJob.
  destruct (decide (GetSchedule (deref m j) = "")); [done|].
  simpl. unfold cronAddJob. rewrite Hparse. simpl. done.
Qed.

(** X3. Every call of [AddJob] logs the registration line with the name, the
    command and the schedule of the job, also when the job is rejected. *)
Theorem AddJob_always_logs j m :
  Logger (sched (AddJob cronParse j m).2)
  = Logger (sched m)
    ++ [NoticeNewJob (GetName (deref m j)) (GetCommand (deref m j))
                     (GetSchedule (deref m j))].
Proof.
  unfold AddJob. destruct (decide _); [reflexivity|].
  simpl. unfold cronAddJob. destruct (cronParse _); reflexivity.
Qed.

(** X4. [Start] succeeds exactly when the scheduler is not running and its
    registry is not empty; it then sets the running flag, starts the cron
    trigger, logs the number of jobs, and leaves the registry and the cron
    entries as they were. *)
Theorem Start_succeeds_iff m :
  ((Start m).1 = None <-> IsRunning m = false /\ Jobs (sched m) ≠ []) /\
  ((Start m).1 = None ->
     IsRunning (Start m).2 = true /\
     cronRunning (cron (sched (Start m).2)) = true /\
     Jobs (sched (Start m).2) = Jobs (sched m) /\
     entries (cron (sched (Start m).2)) = entries (cron (sched m)) /\
     Logger (sched (Start m).2)
       = Logger (sched m) ++ [DebugStarting (length (Jobs (sched m)))]).
Proof.
  unfold Start, IsRunning.
  destruct (isRunning (sched m)) eqn:Hrun; simpl.
  { split; [split; [discriminate|intros [? _]; discriminate]|discriminate]. }
  destruct (decide (length (Jobs (sched m)) = 0)) as [Hlen|Hlen]; simpl.
  - apply length_zero_iff_nil in Hlen.
    split; [split; [discriminate|intros [_ ?]; done]|discriminate].
  - split; [split; [intros _; split; [reflexivity|]|reflexivity]|intros _; done].
    intros Hnil. apply Hlen. rewrite Hnil. reflexivity.
Qed.



(** *** Histories of operations *)

Lemma JobUse_iter_fields (g : list Middleware) (job : @BareJob Middleware) (n : nat) :
  Schedule (Nat.iter n (JobUse g) job) = Schedule job /\
  Name (Nat.iter n (JobUse g) job) = Name job /\
  Command (Nat.iter n (JobUse g) job) = Command job /\
  running (Nat.iter n (JobUse g) job) = running job.
Proof.
  induction n as [|n IH]; [done|].
  rewrite Nat.iter_succ. unfold JobUse at 1 3 5 7. simpl. exact IH.
Qed.

Lemma step_fields m o j :
  Schedule (deref (step cronParse m o).2 j) = Schedule (deref m j) /\
  Name (deref (step cronParse m o).2 j) = Name (deref m j) /\
  Command (deref (step cronParse m o).2 j) = Command (deref m j) /\
  running (deref (step cronParse m o).2 j) = running (deref m j).
Proof.
  unfold deref. rewrite !lookup_total_alt, step_objs.
  destruct (objs m !! j) as [job|]; simpl; [|done].
  apply JobUse_iter_fields.
Qed.

Lemma step_registry m o :
  Jobs (sched m) `prefix_of` Jobs (sched (step cronParse m o).2) /\
  Logger (sched m) `prefix_of` Logger (sched (step cronParse m o).2).
Proof.
  destruct o as [j| |]; simpl.
  - unfold AddJob. destruct (decide _); simpl.
    { split; [done|]. by apply prefix_app_r. }
    unfold cronAddJob. destruct (cronParse _); simpl;
      (split; [|by apply prefix_app_r]); [done|by apply prefix_app_r].
  - unfold Start. destruct (isRunning (sched m)); [done|].
    destruct (decide _); [done|]. simpl. split; [done|by apply prefix_app_r].
  - unfold Stop. destruct (isRunning (sched m)); done.
Qed.

(** X7. Jobs are never removed from the registry nor reordered, and the log is
    only added to: after any history of [AddJob], [Start] and [Stop] calls
    the registry and the log start with what they were.  The operations
    never change the schedule, the name, the command or the running counter
    of a job object. *)
Theorem history_keeps_registry ops : forall m,
  Jobs (sched m) `prefix_of` Jobs (sched (runOps cronParse ops m)) /\
  Logger (sched m) `prefix_of` Logger (sched (runOps cronParse ops m)) /\
  (forall j,
     GetSchedule (deref (runOps cronParse ops m) j) = GetSchedule (deref m j) /\
     GetName (deref (runOps cronParse ops m) j) = GetName (deref m j) /\
     GetCommand (deref (runOps cronParse ops m) j) = GetCommand (deref m j) /\
     Running (deref (runOps cronParse ops m) j) = Running (deref m j)).
Proof.
  induction ops as [|o ops IH]; intros m; [done|].
  change (runOps cronParse (o :: ops) m)
    with (runOps cronParse ops (step cronParse m o).2).
  destruct (IH (step cronParse m o).2) as (Hjobs & Hlog & Hfields).
  destruct (step_registry m o) as [Hjobs1 Hlog1].
  split; [by etrans|split; [by etrans|]].
  intros j. destruct (Hfields j) as (H1 & H2 & H3 & H4).
  destruct (step_fields m o j) as (G1 & G2 & G3 & G4).
  unfold GetSchedule, GetName, GetCommand, Running in *.
  rewrite H1, H2, H3, H4. done.
Qed.

Lemma consistent_step m o :
  consistent cronParse m -> consistent cronParse (step cronParse m o).2.
Proof.
  intros Hm. pose proof Hm as (Hflag & Hentries & Hsched & Hrun).
  destruct o as [j| |]; simpl.
  - unfold AddJob. destruct (decide _) as [|Hne]; simpl.
    { exact Hm. }
    unfold cronAddJob. destruct (cronParse _) eqn:Hparse; simpl.
    { exact Hm. }
    split; [exact Hflag|split; [|split]]; simpl.
    + rewrite map_app, Hentries. reflexivity.
    + apply Forall_app. split; [exact Hsched|]. apply Forall_singleton. done.
    + intros _ Hnil. by apply app_eq_nil in Hnil as [_ ?].
  - assert (forall j, GetSchedule (deref (Start m).2 j) = GetSchedule (deref m j)) as Hsame.
    { intros j. apply (step_fields m OpStart j). }
    unfold Start in *. destruct (isRunning (sched m)) eqn:Hr; [exact Hm|].
    destruct (decide (length (Jobs (sched m)) = 0)) as [|Hlen]; [exact Hm|].
    simpl in Hsame. split; [reflexivity|split; [|split]]; simpl.
    + rewrite Hentries. apply map_ext. intros j. rewrite Hsame. reflexivity.
    + eapply Forall_impl; [exact Hsched|]. intros j. simpl. rewrite Hsame. done.
    + intros _ Hnil. apply Hlen. rewrite Hnil. reflexivity.
  - unfold Stop. destruct (isRunning (sched m)) eqn:Hr; [|exact Hm].
    simpl. split; [reflexivity|split; [exact Hentries|split; [exact Hsched|discriminate]]].
Qed.

(** X8. On every scheduler built from a new one by [Use] of global middlewares
    and then any history of [AddJob], [Start] and [Stop] calls, the registry
    and the cron trigger agree: the running flags are equal, the cron
    entries are the registered jobs in order under their schedules, no
    registered schedule is empty or rejected by the cron parser, and a
    running scheduler has at least one job. *)
Theorem history_consistent ops gl (o : gmap positive (@BareJob Middleware)) :
  consistent cronParse
    (runOps cronParse ops (SchedulerUse gl {| sched := NewScheduler; objs := o |})).
Proof.
  assert (forall m, consistent cronParse m -> consistent cronParse (runOps cronParse ops m))
    as Hall.
  { induction ops as [|op ops IH]; intros m Hm; [exact Hm|].
    change (runOps cronParse (op :: ops) m)
      with (runOps cronParse ops (step cronParse m op).2).
    apply IH, consistent_step, Hm. }
  apply Hall. unfold consistent. simpl. done.
Qed.

(** *** The running counter, continued *)

Lemma balance_Permutation (ns ns' : list Notify) :
  ns ≡ₚ ns' -> balance ns = balance ns'.
Proof.
  induction 1 as [|n ns ns' _ IH|n n' ns|ns ns' ns'' _ IH1 _ IH2]; simpl.
  - reflexivity.
  - destruct n; rewrite IH; reflexivity.
  - destruct n, n'; lia.
  - congruence.
Qed.

Lemma notifyAll_running (ns : list Notify) : forall job : @BareJob Middleware,
  int32 (Running job) ->
  Running (notifyAll ns job) = wrap32 (Running job + balance ns).
Proof.
  induction ns as [|n ns IH]; intros job Hint.
  - simpl. rewrite Z.add_0_r. symmetry. apply wrap32_id, Hint.
  - change (notifyAll (n :: ns) job) with (notifyAll ns (notify job n)).
    rewrite IH by (destruct n; apply wrap32_int32).
    destruct n; simpl; unfold Running, AddInt32; simpl;
      rewrite wrap32_add_l; f_equal; lia.
Qed.

(** X9. After any history of [NotifyStart] and [NotifyStop] calls, [Running()]
    is the old value plus the number of starts minus the number of stops,
    within int32; so it does not depend on the order of the calls, and it is
    back at the old value once every start has been stopped.  The calls
    change nothing else of the job. *)
Theorem notifyAll_balance (job : @BareJob Middleware) (ns : list Notify) :
  int32 (Running job) ->
  Running (notifyAll ns job) = wrap32 (Running job + balance ns) /\
  (forall ns', ns ≡ₚ ns' -> Running (notifyAll ns' job) = Running (notifyAll ns job)) /\
  (balance ns = 0%Z -> Running (notifyAll ns job) = Running job) /\
  int32 (Running (notifyAll ns job)) /\
  GetSchedule (notifyAll ns job) = GetSchedule job /\
  GetName (notifyAll ns job) = GetName job /\
  GetCommand (notifyAll ns job) = GetCommand job /\
  jobMiddlewares (notifyAll ns job) = jobMiddlewares job.
Proof.
  intros Hint.
  assert (Running (notifyAll ns job) = wrap32 (Running job + balance ns)) as Hrun.
  { apply notifyAll_running, Hint. }
  split; [exact Hrun|split; [|split; [|split]]].
  - intros ns' Hperm.
    rewrite !notifyAll_running, (balance_Permutation _ _ Hperm) by exact Hint.
    reflexivity.
  - intros Hzero. rewrite Hrun, Hzero, Z.add_0_r. apply wrap32_id, Hint.
  - rewrite Hrun. apply wrap32_int32.
  - clear Hint Hrun. revert job.
    induction ns as [|n ns IH]; intros job; [done|].
    change (notifyAll (n :: ns) job) with (notifyAll ns (notify job n)).
    destruct (IH (notify job n)) as (H1 & H2 & H3 & H4).
    rewrite H1, H2, H3, H4. destruct n; done.
Qed.

End SchedulerFacts.

(** ** The run job, continued *)

Section RunJobCalls.

Context {W Middleware : Type}.
Variable GetArgs : string -> list string.

Implicit Types (j : @RunJob W Middleware) (env : @Env W).

(** *** Calls added by a computation *)

Lemma grows_refl ks env : grows ks env env.
Proof. exists []. split; [by rewrite app_nil_r|constructor]. Qed.

Lemma grows_same ks env env' : calls env' = calls env -> grows ks env env'.
Proof. intros H. exists []. split; [by rewrite app_nil_r|constructor]. Qed.

Lemma grows_trans ks env1 env2 env3 :
  grows ks env1 env2 -> grows ks env2 env3 -> grows ks env1 env3.
Proof.
  intros (n1 & H1 & F1) (n2 & H2 & F2). exists (n1 ++ n2).
  split; [by rewrite H2, H1, app_assoc|by apply Forall_app].
Qed.

Lemma grows_mono ks ks' env env' :
  ks ⊆ ks' -> grows ks env env' -> grows ks' env env'.
Proof.
  intros Hsub (new & H & F). exists new. split; [exact H|].
  eapply Forall_impl; [exact F|]. intros c Hc. by apply Hsub.
Qed.

Lemma grows_added ks env env' :
  grows ks env env' ->
  calls env' = calls env ++ added env env' /\ only ks (added env env').
Proof.
  intros (new & H & F). unfold added. rewrite H, drop_app_length. done.
Qed.

Lemma invoke_grows {A : Type} ks (c : docker.Call) (op : W -> A * W) env :
  callKind c ∈ ks -> grows ks env (invoke c op env).2.
Proof.
  intros Hc. unfold invoke. destruct (op (world env)) as [a w1]. simpl.
  exists [c]. split; [reflexivity|]. by apply Forall_singleton.
Qed.

Ltac unfold_M := unfold mbind, M_bind, mret, M_ret; cbv beta.

(** *** Image resolution, continued *)

(** X10. With [pull] false, an error of the client while listing the local
    images is returned as it is, and no pull is attempted: only the sentinel
    of a missing image leads to the pull. *)
Theorem resolveImage_search_error j env msg w1 :
  docker.ListImages (Client j) (Image j) (world env) = (inr msg, w1) ->
  (resolveImage j false env).1 = Some (ErrExternal msg) /\
  calls (resolveImage j false env).2 = calls env ++ [docker.CallListImages (Image j)] /\
  world (resolveImage j false env).2 = w1 /\
  ctxLogger (resolveImage j false env).2 = ctxLogger env.
Proof.
  intros Hlist.
  rewrite resolveImage_local_first, searchLocalImage_run, Hlist. simpl. done.
Qed.

(** X11. With [pull] true, a failed pull is made up for by the local image: when
    the pull fails and exactly one local image matches, the resolution
    succeeds, the pull error is dropped, and the local find is logged. *)
Theorem resolveImage_pull_failed_local_found j env msg w1 imgs w2 :
  docker.PullImage (Client j) (Image j) (world env) = (Some msg, w1) ->
  docker.ListImages (Client j) (Image j) w1 = (inl imgs, w2) ->
  length imgs = 1 ->
  (resolveImage j true env).1 = None /\
  calls (resolveImage j true env).2
    = calls env ++ [docker.CallPullImage (Image j); docker.CallListImages (Image j)] /\
  world (resolveImage j true env).2 = w2 /\
  ctxLogger (resolveImage j true env).2
    = ctxLogger env ++ [LogLine ("Found locally image " +:+ Image j)].
Proof.
  intros Hpull Hlist Hone.
  rewrite resolveImage_pull_first, pullImage_run, Hpull. simpl.
  rewrite searchLocalImage_run. simpl. rewrite Hlist. simpl.
  destruct (decide (length imgs ≠ 1)); [done|]. simpl.
  rewrite <- app_assoc. done.
Qed.

(** X12. Whatever the client answers, a resolution makes one or two calls: with
    [pull] true a pull, followed or not by a local search; with [pull] false
    a local search, followed or not by a pull.  It never pulls twice.  With
    [pull] true the search follows exactly when the pull failed. *)
Theorem resolveImage_calls j pull env :
  calls (resolveImage j pull env).2 = calls env ++ added env (resolveImage j pull env).2 /\
  (pull = true ->
     added env (resolveImage j pull env).2
       = [docker.CallPullImage (Image j)] /\
     (docker.PullImage (Client j) (Image j) (world env)).1 = None
     \/
     added env (resolveImage j pull env).2
       = [docker.CallPullImage (Image j); docker.CallListImages (Image j)] /\
     (docker.PullImage (Client j) (Image j) (world env)).1 ≠ None) /\
  (pull = false ->
     added env (resolveImage j pull env).2
       = [docker.CallListImages (Image j)]
     \/
     added env (resolveImage j pull env).2
       = [docker.CallListImages (Image j); docker.CallPullImage (Image j)] /\
     (searchLocalImage j env).1 = Some ErrLocalImageNotFound).
Proof.
  unfold added. destruct pull.
  - rewrite resolveImage_pull_first, pullImage_run.
    destruct (docker.PullImage (Client j) (Image j) (world env)) as [[msg|] w1]; simpl.
    + rewrite searchLocalImage_run. simpl.
      destruct (docker.ListImages (Client j) (Image j) w1) as [[imgs|msg'] w2]; simpl;
        [destruct (decide (length imgs ≠ 1)); simpl|];
        rewrite <- ?app_assoc, drop_app_length;
        (split; [reflexivity|split; [intros _; right; done|discriminate]]).
    + rewrite drop_app_length.
      split; [reflexivity|split; [intros _; left; done|discriminate]].
  - rewrite resolveImage_local_first, searchLocalImage_run.
    destruct (docker.ListImages (Client j) (Image j) (world env)) as [[imgs|msg'] w1]; simpl.
    + destruct (decide (length imgs ≠ 1)); simpl.
      * rewrite pullImage_run. simpl.
        destruct (docker.PullImage (Client j) (Image j) w1) as [[msg|] w2]; simpl;
          rewrite <- ?app_assoc, drop_app_length;
          (split; [reflexivity|split; [discriminate|intros _; right; done]]).
      * rewrite drop_app_length.
        split; [reflexivity|split; [discriminate|intros _; left; done]].
    + rewrite drop_app_length.
      split; [reflexivity|split; [discriminate|intros _; left; done]].
Qed.

(** *** Building the container, continued *)

Lemma connectNetworks_connected j c networks w w' :
  connected j c networks w w' ->
  forall env,
    world env = w ->
    connectNetworks j c networks env
    = (None,
       {| world := w'; calls := calls env ++ connectCalls c networks;
          clock := clock env; ctxLogger := ctxLogger env;
          ctxOutput := ctxOutput env; ctxError := ctxError env |}).
Proof.
  induction 1 as [w|network rest w w1 w' Hconn Hrest IH]; intros env Hw.
  - simpl. unfold mret, M_ret. rewrite app_nil_r, <- Hw. by destruct env.
  - simpl. unfold mbind, M_bind, mret, M_ret, invoke. rewrite Hw, Hconn.
    rewrite IH by reflexivity. simpl. rewrite <- app_assoc. reflexivity.
Qed.

Lemma connectNetworks_first_failure j c pre network post w w1 msg w2 :
  connected j c pre w w1 ->
  docker.ConnectNetwork (Client j) (docker.NetworkID network) (docker.ID c) w1
    = (Some msg, w2) ->
  forall env,
    world env = w ->
    connectNetworks j c (pre ++ network :: post) env
    = (Some (ErrConnectingNetwork msg),
       {| world := w2; calls := calls env ++ connectCalls c (pre ++ [network]);
          clock := clock env; ctxLogger := ctxLogger env;
          ctxOutput := ctxOutput env; ctxError := ctxError env |}).
Proof.
  induction 1 as [w|n rest w w1' w' Hconn Hrest IH]; intros Hfail env Hw.
  - simpl. unfold mbind, M_bind, mret, M_ret, invoke. rewrite Hw, Hfail. reflexivity.
  - simpl. unfold mbind, M_bind, mret, M_ret, invoke. rewrite Hw, Hconn.
    rewrite IH by done. simpl. rewrite <- app_assoc. reflexivity.
Qed.

(** X13. When the container cannot be created, [buildContainer] returns the
    "creating" error after that one call: no network is listed or connected,
    whatever [Network] says. *)
Theorem buildContainer_create_fails j env msg w1 :
  docker.CreateContainer (Client j) (createOptions GetArgs j) (world env) = (inr msg, w1) ->
  buildContainer GetArgs j env
  = (inr (ErrCreatingExec msg),
     {| world := w1;
        calls := calls env ++ [docker.CallCreateContainer (createOptions GetArgs j)];
        clock := clock env; ctxLogger := ctxLogger env;
        ctxOutput := ctxOutput env; ctxError := ctxError env |}).
Proof.
  intros Hcreate. unfold buildContainer. unfold mbind, M_bind, mret, M_ret, invoke.
  rewrite Hcreate. reflexivity.
Qed.

(** X14. Without a network name, [buildContainer] makes the create call and no
    other, and returns the container created. *)
Theorem buildContainer_without_network j env c w1 :
  Network j = "" ->
  docker.CreateContainer (Client j) (createOptions GetArgs j) (world env) = (inl c, w1) ->
  buildContainer GetArgs j env
  = (inl c,
     {| world := w1;
        calls := calls env ++ [docker.CallCreateContainer (createOptions GetArgs j)];
        clock := clock env; ctxLogger := ctxLogger env;
        ctxOutput := ctxOutput env; ctxError := ctxError env |}).
Proof.
  intros Hnet Hcreate. unfold buildContainer. unfold mbind, M_bind, mret, M_ret, invoke.
  rewrite Hcreate. destruct (decide (Network j ≠ "")); [done|]. reflexivity.
Qed.

(** X15. With a network name, the new container is connected to every network
    the listing returns, in the order returned (none when the listing is
    empty), and is then returned. *)
Theorem buildContainer_connects_all j env c w1 networks w2 w3 :
  Network j ≠ "" ->
  docker.CreateContainer (Client j) (createOptions GetArgs j) (world env) = (inl c, w1) ->
  docker.FilteredListNetworks (Client j) (Network j) w1 = (inl networks, w2) ->
  connected j c networks w2 w3 ->
  buildContainer GetArgs j env
  = (inl c,
     {| world := w3;
        calls := calls env
                 ++ [docker.CallCreateContainer (createOptions GetArgs j);
                     docker.CallFilteredListNetworks (Network j)]
                 ++ connectCalls c networks;
        clock := clock env; ctxLogger := ctxLogger env;
        ctxOutput := ctxOutput env; ctxError := ctxError env |}).
Proof.
  intros Hnet Hcreate Hlist Hconn.
  unfold buildContainer. unfold mbind, M_bind, mret, M_ret, invoke.
  rewrite Hcreate. destruct (decide (Network j ≠ "")); [|done]. simpl.
  rewrite Hlist.
  rewrite (connectNetworks_connected j c networks w2 w3 Hconn) by reflexivity.
  simpl. rewrite <- !app_assoc. reflexivity.
Qed.

(** X16. The connections stop at the first one that fails: the networks listed
    after it are not tried, and [buildContainer] returns the "connecting"
    error with the message of that failure. *)
Theorem buildContainer_first_connect_failure j env c w1 pre network post w2 w3 msg w4 :
  Network j ≠ "" ->
  docker.CreateContainer (Client j) (createOptions GetArgs j) (world env) = (inl c, w1) ->
  docker.FilteredListNetworks (Client j) (Network j) w1
    = (inl (pre ++ network :: post), w2) ->
  connected j c pre w2 w3 ->
  docker.ConnectNetwork (Client j) (docker.NetworkID network) (docker.ID c) w3
    = (Some msg, w4) ->
  buildContainer GetArgs j env
  = (inr (ErrConnectingNetwork msg),
     {| world := w4;
        calls := calls env
                 ++ [docker.CallCreateContainer (createOptions GetArgs j);
                     docker.CallFilteredListNetworks (Network j)]
                 ++ connectCalls c (pre ++ [network]);
        clock := clock env; ctxLogger := ctxLogger env;
        ctxOutput := ctxOutput env; ctxError := ctxError env |}).
Proof.
  intros Hnet Hcreate Hlist Hconn Hfail.
  unfold buildContainer. unfold mbind, M_bind, mret, M_ret, invoke.
  rewrite Hcreate. destruct (decide (Network j ≠ "")); [|done]. simpl.
  rewrite Hlist.
  rewrite (connectNetworks_first_failure j c pre network post w2 w3 msg w4 Hconn Hfail)
    by reflexivity.
  simpl. rewrite <- !app_assoc. reflexivity.
Qed.

(** *** The watch loop, continued *)

Lemma watchLoop_inspect_error j id k w w1 :
  runsFor j id k w w1 ->
  forall fuel r env msg w2,
    world env = w ->
    docker.InspectContainerWithOptions (Client j) id w1 = (inr msg, w2) ->
    k < fuel ->
    (0 <= r)%Z ->
    (r + (Z.of_nat k + 1) * watchDuration <= maxProcessDuration)%Z ->
    watchLoop fuel j id r env
    = (Some (inr (ErrExternal msg)),
       {| world := w2;
          calls := calls env ++ replicate (S k) (docker.CallInspectContainer id);
          clock := (clock env + (Z.of_nat k + 1) * watchDuration)%Z;
          ctxLogger := ctxLogger env; ctxOutput := ctxOutput env;
          ctxError := ctxError env |}).
Proof.
  pose proof (proj1 durations) as Hwd.
  induction 1 as [w|k w w1 w' c' Hinspect Hrunning Hruns IH];
    intros fuel r env msg w2 Hw Hlast Hfuel Hr Hroom;
    (destruct fuel as [|fuel]; [lia|]); simpl;
    unfold mbind, M_bind, mret, M_ret, Sleep, invoke; simpl.
  - rewrite slept_no_wrap by lia.
    destruct (decide (r + watchDuration > maxProcessDuration)%Z); [lia|].
    simpl. rewrite Hw, Hlast. simpl. f_equal; f_equal; lia.
  - rewrite slept_no_wrap by lia.
    destruct (decide (r + watchDuration > maxProcessDuration)%Z); [lia|].
    simpl. rewrite Hw, Hinspect, Hrunning. simpl.
    rewrite (IH fuel _ _ msg w2); simpl; try done; try lia.
    f_equal. f_equal; [|lia].
    rewrite <- app_assoc. reflexivity.
Qed.

(** X17. An inspection that fails ends the watch: its error is returned as it
    is, without another sleep or inspection. *)
Theorem watchContainer_inspect_error j id env k w1 msg w2 :
  runsFor j id k (world env) w1 ->
  k < ceilingPolls ->
  docker.InspectContainerWithOptions (Client j) id w1 = (inr msg, w2) ->
  (watchContainer j id env).1 = Some (ErrExternal msg) /\
  calls (watchContainer j id env).2
    = calls env ++ replicate (S k) (docker.CallInspectContainer id) /\
  world (watchContainer j id env).2 = w2 /\
  clock (watchContainer j id env).2
    = (clock env + (Z.of_nat k + 1) * watchDuration)%Z.
Proof.
  intros Hruns Hk Hlast.
  pose proof ceilingPolls_Z as Hpolls.
  destruct durations as [Hwd Hmax].
  assert (k < maxPolls) as Hfuel by (unfold maxPolls; apply Nat.lt_lt_succ_r, Hk).
  assert (0 + (Z.of_nat k + 1) * watchDuration <= maxProcessDuration)%Z as Hroom.
  { apply Nat2Z.inj_lt in Hk. rewrite Hpolls in Hk. rewrite Hwd, Hmax. lia. }
  unfold watchContainer. unfold mbind, M_bind, mret, M_ret.
  rewrite (watchLoop_inspect_error j id k (world env) w1 Hruns maxPolls 0 env msg w2
             eq_refl Hlast Hfuel (Z.le_refl 0) Hroom).
  cbv beta iota. cbn [fst snd world calls clock].
  split; [reflexivity|split; [reflexivity|split; reflexivity]].
Qed.

(** What the loop does in any case: [n] inspections of the container and
    [s] sleeps, in step with the time slept. *)
Lemma watchLoop_shape j id fuel : forall r env,
  (0 <= r <= maxProcessDuration)%Z ->
  exists n s : nat,
    calls (watchLoop fuel j id r env).2
      = calls env ++ replicate n (docker.CallInspectContainer id) /\
    clock (watchLoop fuel j id r env).2 = (clock env + Z.of_nat s * watchDuration)%Z /\
    n <= s /\
    (r + Z.of_nat n * watchDuration <= maxProcessDuration)%Z /\
    (r + Z.of_nat s * watchDuration <= maxProcessDuration + watchDuration)%Z /\
    ctxLogger (watchLoop fuel j id r env).2 = ctxLogger env /\
    ctxOutput (watchLoop fuel j id r env).2 = ctxOutput env /\
    ctxError (watchLoop fuel j id r env).2 = ctxError env /\
    (forall st, (watchLoop fuel j id r env).1 = Some (inl st) ->
                docker.Running st = false).
Proof.
  pose proof (proj1 durations) as Hwd.
  induction fuel as [|fuel IH]; intros r env Hr.
  - exists 0, 0. simpl. rewrite app_nil_r.
    repeat split; try done; try lia.
  - simpl. unfold mbind, M_bind, mret, M_ret, Sleep, invoke. simpl.
    rewrite slept_no_wrap by lia.
    destruct (decide (r + watchDuration > maxProcessDuration)%Z) as [Hover|Hunder]; simpl.
    { exists 0, 1. simpl. rewrite app_nil_r. repeat split; try done; lia. }
    destruct (docker.InspectContainerWithOptions (Client j) id (world env))
      as [[c|msg] w1]; simpl.
    2:{ exists 1, 1. simpl. repeat split; try done; lia. }
    destruct (docker.Running (docker.CState c)) eqn:Hrunning; simpl.
    2:{ exists 1, 1. simpl. repeat split; try done; try lia.
        intros st [= <-]. exact Hrunning. }
    match goal with
    | |- context [watchLoop fuel j id ?r' ?e'] =>
        destruct (IH r' e') as (n & s & Hc & Hk & Hns & Hn & Hs & Hl & Ho & He & Hst);
          [lia|]
    end.
    exists (S n), (S s). simpl in *.
    rewrite Hc, Hk, Hl, Ho, He, <- app_assoc.
    repeat split; try done; try lia.
Qed.

(** X18. Whatever the client answers, [watchContainer] returns after at most
    864000 inspections and at most 864001 sleeps (24h and one interval); it
    only inspects the one container, and writes neither log lines nor
    output. *)
Theorem watchContainer_bounded j id env :
  exists n s : nat,
    calls (watchContainer j id env).2
      = calls env ++ replicate n (docker.CallInspectContainer id) /\
    clock (watchContainer j id env).2 = (clock env + Z.of_nat s * watchDuration)%Z /\
    (Z.of_nat n <= 864000)%Z /\
    (Z.of_nat s <= 864001)%Z /\
    n <= s /\
    ctxLogger (watchContainer j id env).2 = ctxLogger env /\
    ctxOutput (watchContainer j id env).2 = ctxOutput env /\
    ctxError (watchContainer j id env).2 = ctxError env.
Proof.
  destruct durations as [Hwd Hmax].
  destruct (watchLoop_shape j id maxPolls 0 env)
    as (n & s & Hc & Hk & Hns & Hn & Hs & Hl & Ho & He & _); [lia|].
  exists n, s.
  unfold watchContainer. unfold mbind, M_bind, mret, M_ret.
  destruct (watchLoop maxPolls j id 0 env) as [[[st|err]|] env1];
    cbn [fst snd] in *; (repeat split; try done; lia).
Qed.

(** *** The calls of a run *)

Ltac solve_grows :=
  eexists; split;
    [simpl; rewrite <- ?app_assoc; reflexivity
    |repeat constructor; simpl; set_solver].

Lemma resolveImage_grows j pull env :
  grows [KListImages; KPullImage] env (resolveImage j pull env).2.
Proof.
  destruct pull.
  - rewrite resolveImage_pull_first, pullImage_run.
    destruct (docker.PullImage (Client j) (Image j) (world env)) as [[msg|] w1]; simpl.
    + rewrite searchLocalImage_run. simpl.
      destruct (docker.ListImages (Client j) (Image j) w1) as [[imgs|msg'] w2]; simpl;
        [destruct (decide (length imgs ≠ 1)); simpl|]; solve_grows.
    + solve_grows.
  - rewrite resolveImage_local_first, searchLocalImage_run.
    destruct (docker.ListImages (Client j) (Image j) (world env)) as [[imgs|msg'] w1]; simpl.
    + destruct (decide (length imgs ≠ 1)); simpl.
      * rewrite pullImage_run. simpl.
        destruct (docker.PullImage (Client j) (Image j) w1) as [[msg|] w2]; simpl;
          solve_grows.
      * solve_grows.
    + solve_grows.
Qed.

Lemma connectNetworks_grows j c networks : forall env,
  grows [KConnectNetwork] env (connectNetworks j c networks env).2.
Proof.
  induction networks as [|network rest IH]; intros env; [apply grows_refl|].
  simpl. unfold mbind, M_bind, mret, M_ret.
  match goal with
  | |- context [invoke ?call ?op env] =>
      pose proof (invoke_grows [KConnectNetwork] call op env) as Hstep;
      destruct (invoke call op env) as [[msg|] env1]
  end; simpl in *.
  - apply Hstep. set_solver.
  - eapply grows_trans; [apply Hstep; set_solver|apply IH].
Qed.

Lemma buildContainer_grows j env :
  grows [KCreateContainer; KFilteredListNetworks; KConnectNetwork] env
        (buildContainer GetArgs j env).2.
Proof.
  unfold buildContainer. unfold mbind, M_bind, mret, M_ret.
  match goal with
  | |- context [invoke ?call ?op env] =>
      pose proof (invoke_grows [KCreateContainer; KFilteredListNetworks; KConnectNetwork]
                    call op env) as Hcreate;
      destruct (invoke call op env) as [[c|msg] env1]
  end; simpl in *; [|apply Hcreate; set_solver].
  destruct (decide (Network j ≠ "")); simpl; [|apply Hcreate; set_solver].
  match goal with
  | |- context [invoke ?call ?op env1] =>
      pose proof (invoke_grows [KCreateContainer; KFilteredListNetworks; KConnectNetwork]
                    call op env1) as Hlist;
      destruct (invoke call op env1) as [[networks|msg] env2]
  end; simpl in *.
  2:{ eapply grows_trans; [apply Hcreate; set_solver|apply Hlist; set_solver]. }
  pose proof (connectNetworks_grows j c networks env2) as Hconn.
  destruct (connectNetworks j c networks env2) as [[e|] env3]; simpl in *;
    (eapply grows_trans; [apply Hcreate; set_solver|];
     eapply grows_trans; [apply Hlist; set_solver|];
     eapply grows_mono; [|exact Hconn]; set_solver).
Qed.

Lemma getContainer_grows j id env :
  grows [KInspectContainer] env (getContainer j id env).2.
Proof.
  unfold getContainer. unfold mbind, M_bind, mret, M_ret.
  match goal with
  | |- context [invoke ?call ?op env] =>
      pose proof (invoke_grows [KInspectContainer] call op env) as Hstep;
      destruct (invoke call op env) as [[c|msg] env1]
  end; simpl in *; apply Hstep; set_solver.
Qed.

Lemma startContainer_grows j c env :
  grows [KStartContainer] env (startContainer j c env).2.
Proof.
  unfold startContainer. unfold mbind, M_bind, mret, M_ret.
  match goal with
  | |- context [invoke ?call ?op env] =>
      pose proof (invoke_grows [KStartContainer] call op env) as Hstep;
      destruct (invoke call op env) as [r env1]
  end; simpl in *; apply Hstep; set_solver.
Qed.

Lemma acquire_grows j env :
  grows (if decide (Image j ≠ "" /\ Container j = "")
         then [KListImages; KPullImage; KCreateContainer; KFilteredListNetworks;
               KConnectNetwork]
         else [KInspectContainer])
        env (acquire GetArgs j env).2.
Proof.
  unfold acquire. destruct (decide (Image j ≠ "" ∧ Container j = "")).
  - unfold mbind, M_bind, mret, M_ret.
    pose proof (resolveImage_grows j (ParseBool (Pull j)).1 env) as Hres.
    destruct (resolveImage j (ParseBool (Pull j)).1 env) as [[e|] env1]; simpl in *.
    + eapply grows_mono; [|exact Hres]. set_solver.
    + eapply grows_trans; [eapply grows_mono; [|exact Hres]; set_solver|].
      eapply grows_mono; [|apply buildContainer_grows]. set_solver.
  - apply getContainer_grows.
Qed.

Lemma watchContainer_grows j id env :
  grows [KInspectContainer] env (watchContainer j id env).2.
Proof.
  destruct durations as [Hwd Hmax].
  destruct (watchLoop_shape j id maxPolls 0 env) as (n & s & Hc & _); [lia|].
  unfold watchContainer. unfold mbind, M_bind, mret, M_ret.
  destruct (watchLoop maxPolls j id 0 env) as [[[st|err]|] env1]; cbn [fst snd] in *;
    (exists (replicate n (docker.CallInspectContainer id)); split; [exact Hc|];
     apply Forall_replicate; simpl; set_solver).
Qed.

Lemma finish_grows j c t env :
  grows ([KInspectContainer; KLogs]
         ++ (if decide (Container j = "")
             then (if (ParseBool (Delete j)).1 then [KRemoveContainer] else [])
             else []))
        env (finish j c t env).2.
Proof.
  unfold finish. unfold mbind, M_bind, mret, M_ret. cbv beta.
  pose proof (watchContainer_grows j (docker.ID c) env) as Hwatch.
  destruct (watchContainer j (docker.ID c) env) as [err env1]. cbn [fst snd] in *.
  destruct (decide (err = Some ErrUnexpected)).
  { eapply grows_mono; [|exact Hwatch]. set_solver. }
  eapply grows_trans; [eapply grows_mono; [|exact Hwatch]; set_solver|].
  clear Hwatch. unfold invoke at 1.
  destruct (docker.Logs (Client j) (logsOptions j c t) (world env1))
    as [[[out errout] logsErr] w1].
  unfold deleteContainer, writeStreams, ctxWarn, logLine, invoke.
  unfold mbind, M_bind, mret, M_ret.
  destruct logsErr as [msg|]; destruct (decide (Container j = ""));
    destruct (ParseBool (Delete j)).1; simpl;
    try (destruct (docker.RemoveContainer _ _ _) as [[dmsg|] w2]; simpl);
    solve_grows.
Qed.

Lemma Run_grows j env :
  grows ((if decide (Image j ≠ "" /\ Container j = "")
          then [KListImages; KPullImage; KCreateContainer; KFilteredListNetworks;
                KConnectNetwork]
          else [])
         ++ [KInspectContainer; KStartContainer; KLogs]
         ++ (if decide (Container j = "")
             then (if (ParseBool (Delete j)).1 then [KRemoveContainer] else [])
             else []))
        env (Run GetArgs j env).2.
Proof.
  unfold Run. unfold mbind, M_bind, mret, M_ret. cbv beta.
  pose proof (acquire_grows j env) as Hacq.
  destruct (acquire GetArgs j env) as [[c|e] env1]; cbn [fst snd] in *.
  2:{ eapply grows_mono; [|exact Hacq]. destruct (decide _); set_solver. }
  unfold Now.
  pose proof (startContainer_grows j c env1) as Hstart.
  destruct (startContainer j c env1) as [[e|] env2]; cbn [fst snd] in *.
  { eapply grows_trans; [eapply grows_mono; [|exact Hacq]; destruct (decide _); set_solver|].
    eapply grows_mono; [|exact Hstart]. set_solver. }
  eapply grows_trans; [eapply grows_mono; [|exact Hacq]; destruct (decide _); set_solver|].
  eapply grows_trans; [eapply grows_mono; [|exact Hstart]; set_solver|].
  eapply grows_mono; [|apply finish_grows]. set_solver.
Qed.

(** X19. A run on an existing container ([Container] set) only inspects it,
    starts it and fetches its logs: it never lists or pulls an image, never
    creates a container, never touches a network and never removes the
    container, whatever [Image], [Pull] and [Delete] say. *)
Theorem Run_existing_container j env :
  Container j ≠ "" ->
  calls (Run GetArgs j env).2 = calls env ++ added env (Run GetArgs j env).2 /\
  only [KInspectContainer; KStartContainer; KLogs] (added env (Run GetArgs j env).2).
Proof.
  intros Hcont.
  pose proof (Run_grows j env) as Hrun.
  destruct (decide (Image j ≠ "" ∧ Container j = "")) as [[_ ?]|_]; [done|].
  destruct (decide (Container j = "")); [done|].
  apply grows_added. eapply grows_mono; [|exact Hrun]. set_solver.
Qed.

(** X20. [Run] calls the removal of a container only when no [Container] was
    given and [Delete] parses as true. *)
Theorem Run_removes_only_when_asked j env id :
  docker.CallRemoveContainer id ∈ added env (Run GetArgs j env).2 ->
  Container j = "" /\ (ParseBool (Delete j)).1 = true.
Proof.
  intros Hin.
  destruct (grows_added _ _ _ (Run_grows j env)) as [_ Honly].
  unfold only in Honly. rewrite Forall_forall in Honly.
  specialize (Honly _ Hin). simpl in Honly.
  destruct (decide (Image j ≠ "" ∧ Container j = ""));
    destruct (decide (Container j = "")); destruct (ParseBool (Delete j)).1;
    try done; set_solver.
Qed.

(** *** The outcomes of a run *)

(** X21. When the container cannot be started, [Run] returns the error of the
    client as it is and stops there: the container, also one that was just
    created, is neither inspected nor removed, and no logs are fetched. *)
Theorem Run_start_failure j env c env1 msg w2 :
  acquire GetArgs j env = (inl c, env1) ->
  docker.StartContainer (Client j) (docker.ID c) (world env1) = (Some msg, w2) ->
  Run GetArgs j env
  = (Some (ErrExternal msg),
     {| world := w2;
        calls := calls env1 ++ [docker.CallStartContainer (docker.ID c)];
        clock := clock env1; ctxLogger := ctxLogger env1;
        ctxOutput := ctxOutput env1; ctxError := ctxError env1 |}).
Proof.
  intros Hacq Hstart. unfold Run. unfold mbind, M_bind, mret, M_ret. cbv beta.
  rewrite Hacq. unfold Now, startContainer, invoke.
  unfold mbind, M_bind, mret, M_ret. rewrite Hstart. reflexivity.
Qed.

(** X22. [Run] returns nil only when a container was acquired and started and
    was then seen stopped with exit code 0. *)
Theorem Run_nil_only_after_exit_0 j env :
  (Run GetArgs j env).1 = None ->
  exists c env1 env2 st env3,
    acquire GetArgs j env = (inl c, env1) /\
    startContainer j c env1 = (None, env2) /\
    watchLoop maxPolls j (docker.ID c) 0 env2 = (Some (inl st), env3) /\
    docker.Running st = false /\
    docker.ExitCode st = 0%Z.
Proof.
  intros Hnil.
  destruct (acquire GetArgs j env) as [[c|e] env1] eqn:Hacq.
  2:{ unfold Run in Hnil. unfold mbind, M_bind, mret, M_ret in Hnil.
      rewrite Hacq in Hnil. discriminate. }
  destruct (startContainer j c env1) as [[e|] env2] eqn:Hstart.
  { unfold Run in Hnil. unfold mbind, M_bind, mret, M_ret, Now in Hnil.
    rewrite Hacq, Hstart in Hnil. discriminate. }
  rewrite (Run_started GetArgs j env c env1 env2 Hacq Hstart) in Hnil.
  destruct (finish_run GetArgs j c (clock env1) env2) as [Hunexp Hother].
  destruct (decide ((watchContainer j (docker.ID c) env2).1 = Some ErrUnexpected))
    as [Hu|Hu].
  { rewrite (Hunexp Hu), Hu in Hnil. discriminate. }
  destruct (Hother Hu) as (Hsame & _). rewrite Hsame in Hnil.
  destruct durations as [Hwd Hmax].
  destruct (watchLoop_shape j (docker.ID c) maxPolls 0 env2)
    as (_ & _ & _ & _ & _ & _ & _ & _ & _ & _ & Hstopped); [lia|].
  pose proof (watchContainer_returns j (docker.ID c) env2) as Hret.
  unfold watchContainer in Hnil. unfold mbind, M_bind, mret, M_ret in Hnil.
  destruct (watchLoop maxPolls j (docker.ID c) 0 env2) as [[[st|err]|] env3] eqn:Hloop;
    cbn [fst snd] in *; [|discriminate|contradiction].
  exists c, env1, env2, st, env3.
  split; [first [exact Hacq|reflexivity]|split; [exact Hstart|split; [exact Hloop|]]].
  split; [apply Hstopped; reflexivity|].
  unfold exitError in Hnil.
  destruct (decide (docker.ExitCode st = 0%Z)) as [E|_]; [exact E|].
  destruct (decide (docker.ExitCode st = (-1)%Z)); discriminate.
Qed.

(** X23. When no [Container] was given and [Delete] parses as true, a run whose
    watch did not end with [ErrUnexpected] removes the container it ran, as
    its last call.  A failure of the removal is logged as a warning, the
    last line of the run, and the run still returns the error of the
    watch. *)
Theorem Run_removes_created_container j env c env1 env2 :
  Container j = "" ->
  (ParseBool (Delete j)).1 = true ->
  acquire GetArgs j env = (inl c, env1) ->
  startContainer j c env1 = (None, env2) ->
  (watchContainer j (docker.ID c) env2).1 ≠ Some ErrUnexpected ->
  last (calls (Run GetArgs j env).2) = Some (docker.CallRemoveContainer (docker.ID c)) /\
  (Run GetArgs j env).1 = (watchContainer j (docker.ID c) env2).1 /\
  (forall msg,
     (docker.RemoveContainer (Client j) (docker.ID c)
        (docker.Logs (Client j) (logsOptions j c (clock env1))
           (world (watchContainer j (docker.ID c) env2).2)).2).1 = Some msg ->
     last (ctxLogger (Run GetArgs j env).2)
     = Some (WarnError "failed to delete container: " (ErrExternal msg))).
Proof.
  intros Hcont Hdel Hacq Hstart.
  rewrite (Run_started GetArgs j env c env1 env2 Hacq Hstart).
  unfold finish. unfold mbind, M_bind, mret, M_ret. cbv beta.
  destruct (watchContainer j (docker.ID c) env2) as [err env3]. cbn [fst snd].
  intros Herr. destruct (decide (err = Some ErrUnexpected)); [done|].
  unfold invoke at 1 2 3.
  destruct (docker.Logs (Client j) (logsOptions j c (clock env1)) (world env3))
    as [[[out errout] logsErr] w1]. cbn [fst snd].
  unfold deleteContainer, writeStreams, ctxWarn, logLine, invoke.
  unfold mbind, M_bind, mret, M_ret. rewrite Hdel.
  destruct (decide (Container j = "")); [|done].
  destruct logsErr as [lmsg|]; simpl;
    destruct (docker.RemoveContainer (Client j) (docker.ID c) w1) as [[dmsg|] w2]; simpl;
    (split; [apply last_snoc|split; [reflexivity|]]);
    intros msg Hmsg; try discriminate; injection Hmsg as <-; apply last_snoc.
Qed.

End RunJobCalls.

(** ** The further properties on the scripted inputs *)

Lemma AddJob_registers_sample :
  (AddJob sample.parse 1%positive sample.mem).1 = None /\
  Jobs (sched (AddJob sample.parse 1%positive sample.mem).2) = [] ++ [1%positive].
Proof.
  destruct (AddJob_registers sample.parse 1%positive sample.mem
              ltac:(discriminate) eq_refl) as (H1 & H2 & _).
  split; [exact H1|exact H2].
Defined.

Lemma AddJob_rejected_by_cron_sample :
  (AddJob fixtures.strict 3%positive fixtures.mem).1
    = Some (ErrExternal "unrecognized descriptor") /\
  Jobs (sched (AddJob fixtures.strict 3%positive fixtures.mem).2) = [].
Proof.
  destruct (AddJob_rejected_by_cron fixtures.strict 3%positive fixtures.mem
              "unrecognized descriptor" ltac:(discriminate) eq_refl) as (H1 & H2 & _).
  split; [exact H1|exact H2].
Defined.

Lemma Start_succeeds_iff_sample :
  (Start sample.registered).1 = None /\
  IsRunning (Start sample.registered).2 = true.
Proof.
  destruct (Start_succeeds_iff sample.registered) as [Hiff Heff].
  assert ((Start sample.registered).1 = None) as Hok.
  { apply Hiff. split; [reflexivity|discriminate]. }
  split; [exact Hok|apply (Heff Hok)].
Defined.



Lemma notifyAll_balance_sample :
  Running (notifyAll [NStart; NStart; NStop; NStart; NStop; NStop] sample.job)
    = Running sample.job /\
  Running (notifyAll [NStop; NStart] sample.job)
    = Running (notifyAll [NStart; NStop] sample.job).
Proof.
  assert (int32 (Running sample.job)) as Hint by (vm_compute; split; discriminate).
  split.
  - apply (proj1 (proj2 (proj2 (notifyAll_balance sample.job
             [NStart; NStart; NStop; NStart; NStop; NStop] Hint)))).
    reflexivity.
  - apply (proj1 (proj2 (notifyAll_balance sample.job [NStart; NStop] Hint))).
    apply Permutation_swap.
Defined.

Lemma resolveImage_search_error_sample :
  (resolveImage (mock.job "false" "true") false
     (mock.env (fixtures.imagesUnavailable (mock.runtime 0)))).1
  = Some (ErrExternal "daemon not reachable").
Proof.
  apply (resolveImage_search_error (mock.job "false" "true")
           (mock.env (fixtures.imagesUnavailable (mock.runtime 0)))
           "daemon not reachable" (fixtures.imagesUnavailable (mock.runtime 0)) eq_refl).
Defined.

Lemma resolveImage_pull_failed_local_found_sample :
  (resolveImage (mock.job "true" "true") true
     (mock.env (mock.pullDenied (mock.runtime 0)))).1 = None.
Proof.
  apply (resolveImage_pull_failed_local_found (mock.job "true" "true")
           (mock.env (mock.pullDenied (mock.runtime 0)))
           "pull access denied" (mock.pullDenied (mock.runtime 0))
           [docker.mkAPIImages "sha256:1"] (mock.pullDenied (mock.runtime 0))
           eq_refl eq_refl eq_refl).
Defined.

Lemma resolveImage_calls_sample :
  added (mock.env (mock.pullDenied (mock.runtime 0)))
        (resolveImage (mock.job "true" "true") true
           (mock.env (mock.pullDenied (mock.runtime 0)))).2
  = [docker.CallPullImage "busybox"; docker.CallListImages "busybox"].
Proof.
  destruct (proj1 (proj2 (resolveImage_calls (mock.job "true" "true") true
                            (mock.env (mock.pullDenied (mock.runtime 0))))) eq_refl)
    as [[_ Hnone]|[Hcalls _]].
  - discriminate Hnone.
  - exact Hcalls.
Defined.

Lemma buildContainer_create_fails_sample :
  (buildContainer mock.getArgs (mock.networked (mock.job "true" "true"))
     (mock.env (fixtures.createFails (mock.runtime 0)))).1
  = inr (ErrCreatingExec "no such image").
Proof.
  rewrite (buildContainer_create_fails mock.getArgs (mock.networked (mock.job "true" "true"))
             (mock.env (fixtures.createFails (mock.runtime 0)))
             "no such image" (fixtures.createFails (mock.runtime 0)) eq_refl).
  reflexivity.
Defined.

Lemma buildContainer_without_network_sample :
  calls (buildContainer mock.getArgs (mock.job "true" "true")
           (mock.env (mock.runtime 0))).2
  = [] ++ [docker.CallCreateContainer (createOptions mock.getArgs (mock.job "true" "true"))].
Proof.
  rewrite (buildContainer_without_network mock.getArgs (mock.job "true" "true")
             (mock.env (mock.runtime 0)) (mock.container mock.alive) (mock.runtime 0)
             eq_refl eq_refl).
  reflexivity.
Defined.

Lemma buildContainer_connects_all_sample :
  calls (buildContainer mock.getArgs (mock.networked (mock.job "true" "true"))
           (mock.env (fixtures.threeNetworks (mock.runtime 0)))).2
  = [docker.CallCreateContainer
       (createOptions mock.getArgs (mock.networked (mock.job "true" "true")));
     docker.CallFilteredListNetworks "backend";
     docker.CallConnectNetwork "net0" "c0ffee";
     docker.CallConnectNetwork "net1" "c0ffee";
     docker.CallConnectNetwork "net2" "c0ffee"].
Proof.
  rewrite (buildContainer_connects_all mock.getArgs (mock.networked (mock.job "true" "true"))
             (mock.env (fixtures.threeNetworks (mock.runtime 0)))
             (mock.container mock.alive) (fixtures.threeNetworks (mock.runtime 0))
             [docker.mkNetwork "net0"; docker.mkNetwork "net1"; docker.mkNetwork "net2"]
             (fixtures.threeNetworks (mock.runtime 0))
             (fixtures.threeNetworks (mock.runtime 0))
             ltac:(discriminate) eq_refl eq_refl
             ltac:(repeat (eapply connected_cons; [reflexivity|]); apply connected_nil)).
  reflexivity.
Defined.

Lemma buildContainer_first_connect_failure_sample :
  buildContainer mock.getArgs fixtures.job
    (fixtures.env (fixtures.threeNetworks (mock.runtime 0), [None; Some "refused"]))
  = (inr (ErrConnectingNetwork "refused"),
     {| world := (fixtures.threeNetworks (mock.runtime 0), []);
        calls := [docker.CallCreateContainer (createOptions mock.getArgs fixtures.job);
                  docker.CallFilteredListNetworks "backend";
                  docker.CallConnectNetwork "net0" "c0ffee";
                  docker.CallConnectNetwork "net1" "c0ffee"];
        clock := 0; ctxLogger := []; ctxOutput := ""; ctxError := "" |}).
Proof.
  apply (buildContainer_first_connect_failure mock.getArgs fixtures.job
           (fixtures.env (fixtures.threeNetworks (mock.runtime 0), [None; Some "refused"]))
           (mock.container mock.alive)
           (fixtures.threeNetworks (mock.runtime 0), [None; Some "refused"])
           [docker.mkNetwork "net0"] (docker.mkNetwork "net1") [docker.mkNetwork "net2"]
           (fixtures.threeNetworks (mock.runtime 0), [None; Some "refused"])
           (fixtures.threeNetworks (mock.runtime 0), [Some "refused"])
           "refused"
           (fixtures.threeNetworks (mock.runtime 0), [])
           ltac:(discriminate) eq_refl eq_refl
           ltac:(eapply connected_cons; [reflexivity|apply connected_nil])
           eq_refl).
Defined.

Lemma watchContainer_inspect_error_sample :
  (watchContainer (mock.job "true" "true") "c0ffee"
     (mock.env (fixtures.vanishes (mock.runtime 0)))).1
  = Some (ErrExternal "no such container").
Proof.
  apply (watchContainer_inspect_error (mock.job "true" "true") "c0ffee"
           (mock.env (fixtures.vanishes (mock.runtime 0)))
           1 (mock.inspect (fixtures.vanishes (mock.runtime 0))).2
           "no such container"
           (mock.inspect (mock.inspect (fixtures.vanishes (mock.runtime 0))).2).2).
  - apply (runsFor_S _ _ 0 (fixtures.vanishes (mock.runtime 0))
             (mock.inspect (fixtures.vanishes (mock.runtime 0))).2
             (mock.inspect (fixtures.vanishes (mock.runtime 0))).2
             (mock.container mock.alive)); [reflexivity|reflexivity|constructor].
  - exact one_under_ceiling.
  - reflexivity.
Defined.

Lemma Run_existing_container_sample :
  only [KInspectContainer; KStartContainer; KLogs]
    (added (mock.env (mock.runtime 0))
       (Run mock.getArgs (fixtures.existing (mock.job "true" "true"))
          (mock.env (mock.runtime 0))).2).
Proof.
  apply (Run_existing_container mock.getArgs (fixtures.existing (mock.job "true" "true"))
           (mock.env (mock.runtime 0))).
  discriminate.
Defined.

Lemma Run_removes_only_when_asked_sample :
  Container (mock.job "true" "true") = "" /\
  (ParseBool (Delete (mock.job "true" "true"))).1 = true.
Proof.
  apply (Run_removes_only_when_asked mock.getArgs (mock.job "true" "true")
           (mock.env (mock.runtime 0)) "c0ffee").
  vm_compute. repeat constructor.
Defined.

Lemma Run_start_failure_sample :
  (Run mock.getArgs (mock.job "true" "true")
     (mock.env (fixtures.startFails (mock.runtime 0)))).1
  = Some (ErrExternal "port is already allocated").
Proof.
  rewrite (Run_start_failure mock.getArgs (mock.job "true" "true")
             (mock.env (fixtures.startFails (mock.runtime 0)))
             (mock.container mock.alive)
             (acquire mock.getArgs (mock.job "true" "true")
                (mock.env (fixtures.startFails (mock.runtime 0)))).2
             "port is already allocated"
             (fixtures.startFails (mock.runtime 0)) eq_refl eq_refl).
  reflexivity.
Defined.

Lemma Run_nil_only_after_exit_0_sample :
  exists c env1 env2 st env3,
    acquire mock.getArgs (mock.job "true" "true") (mock.env (mock.runtime 0))
      = (inl c, env1) /\
    startContainer (mock.job "true" "true") c env1 = (None, env2) /\
    watchLoop maxPolls (mock.job "true" "true") (docker.ID c) 0 env2
      = (Some (inl st), env3) /\
    docker.Running st = false /\
    docker.ExitCode st = 0%Z.
Proof.
  apply (Run_nil_only_after_exit_0 mock.getArgs (mock.job "true" "true")
           (mock.env (mock.runtime 0))).
  vm_compute. reflexivity.
Defined.

Lemma Run_removes_created_container_sample :
  last (calls (Run mock.getArgs (mock.job "true" "true")
                 (mock.env (fixtures.removeFails (mock.runtime 7)))).2)
    = Some (docker.CallRemoveContainer "c0ffee") /\
  last (ctxLogger (Run mock.getArgs (mock.job "true" "true")
                     (mock.env (fixtures.removeFails (mock.runtime 7)))).2)
    = Some (WarnError "failed to delete container: " (ErrExternal "container is in use")).
Proof.
  destruct (Run_removes_created_container mock.getArgs (mock.job "true" "true")
              (mock.env (fixtures.removeFails (mock.runtime 7)))
              (mock.container mock.alive)
              (acquire mock.getArgs (mock.job "true" "true")
                 (mock.env (fixtures.removeFails (mock.runtime 7)))).2
              (startContainer (mock.job "true" "true") (mock.container mock.alive)
                 (acquire mock.getArgs (mock.job "true" "true")
                    (mock.env (fixtures.removeFails (mock.runtime 7)))).2).2
              eq_refl eq_refl eq_refl eq_refl) as (H1 & _ & H3).
  { vm_compute. discriminate. }
  split; [exact H1|]. apply H3. vm_compute. reflexivity.
Defined.

(** ** Building the scheduler from a configuration *)

Section ConfigFacts.

Context {Middleware : Type}.
Variable cronParse : string -> option string.
Variable schedulerMiddlewares : list Middleware.
Variable middlewaresOf : ptr -> list Middleware.

Implicit Types (m : @Mem Middleware) (j : ptr) (o : gmap positive (@BareJob Middleware)).

Lemma buildSchedulerMiddlewares_keeps m :
  objs (buildSchedulerMiddlewares schedulerMiddlewares m) = objs m /\
  Jobs (sched (buildSchedulerMiddlewares schedulerMiddlewares m)) = Jobs (sched m) /\
  cron (sched (buildSchedulerMiddlewares schedulerMiddlewares m)) = cron (sched m) /\
  isRunning (sched (buildSchedulerMiddlewares schedulerMiddlewares m)) = isRunning (sched m).
Proof.
  unfold buildSchedulerMiddlewares. revert m.
  induction schedulerMiddlewares as [|mw l IH]; intros m; [done|].
  simpl. destruct (IH (SchedulerUse [mw] m)) as (H1 & H2 & H3 & H4).
  rewrite H1, H2, H3, H4. done.
Qed.

Lemma buildMiddlewares_fields j (job : @BareJob Middleware) :
  Schedule (buildMiddlewares middlewaresOf j job) = Schedule job /\
  Name (buildMiddlewares middlewaresOf j job) = Name job /\
  Command (buildMiddlewares middlewaresOf j job) = Command job /\
  running (buildMiddlewares middlewaresOf j job) = running job.
Proof.
  unfold buildMiddlewares. revert job.
  induction (middlewaresOf j) as [|mw l IH]; intros job; [done|].
  simpl. destruct (IH (JobUse [mw] job)) as (H1 & H2 & H3 & H4).
  rewrite H1, H2, H3, H4. done.
Qed.

Lemma buildJob_objs m name j :
  objs (buildJob cronParse middlewaresOf m (name, j))
  = alter (fun job => buildMiddlewares middlewaresOf j (setName name job)) j (objs m).
Proof.
  unfold buildJob, AddJob. simpl.
  destruct (decide _); [reflexivity|]. simpl.
  unfold cronAddJob. destruct (cronParse _); reflexivity.
Qed.

Lemma buildJob_schedule m entry j' :
  Schedule (objs (buildJob cronParse middlewaresOf m entry) !!! j') = Schedule (objs m !!! j').
Proof.
  destruct entry as [name j]. rewrite buildJob_objs, !lookup_total_alt.
  destruct (decide (j = j')) as [->|Hne].
  - rewrite lookup_alter_eq. destruct (objs m !! j') as [job|]; simpl; [|reflexivity].
    apply (proj1 (buildMiddlewares_fields j' (setName name job))).
  - rewrite lookup_alter_ne by done. reflexivity.
Qed.

Lemma buildJob_sched m name j :
  Jobs (sched (buildJob cronParse middlewaresOf m (name, j)))
    = Jobs (sched m) ++ (if schedulable cronParse (objs m) j then [j] else []) /\
  isRunning (sched (buildJob cronParse middlewaresOf m (name, j))) = isRunning (sched m).
Proof.
  pose proof (buildJob_schedule m (name, j) j) as Hsame.
  rewrite buildJob_objs in Hsame.
  unfold buildJob, AddJob, schedulable, deref, GetSchedule.
  simpl. rewrite Hsame.
  destruct (decide (Schedule (objs m !!! j) = "")) as [Hempty|Hne]; simpl.
  { rewrite bool_decide_eq_false_2 by (intros [? _]; done).
    rewrite app_nil_r. done. }
  unfold cronAddJob. destruct (cronParse (Schedule (objs m !!! j))) eqn:Hparse; simpl.
  - rewrite bool_decide_eq_false_2 by (intros [_ ?]; done).
    rewrite app_nil_r. done.
  - rewrite bool_decide_eq_true_2 by done. done.
Qed.

Lemma schedulable_buildJob m entry j' :
  schedulable cronParse (objs (buildJob cronParse middlewaresOf m entry)) j' = schedulable cronParse (objs m) j'.
Proof. unfold schedulable. rewrite buildJob_schedule. reflexivity. Qed.

Lemma foldl_buildJob_sched (l : list (string * ptr)) : forall m,
  Jobs (sched (foldl (buildJob cronParse middlewaresOf) m l))
    = Jobs (sched m) ++ filter (fun j => schedulable cronParse (objs m) j) (map snd l) /\
  isRunning (sched (foldl (buildJob cronParse middlewaresOf) m l)) = isRunning (sched m) /\
  (forall j', schedulable cronParse (objs (foldl (buildJob cronParse middlewaresOf) m l)) j' = schedulable cronParse (objs m) j').
Proof.
  induction l as [|[name j] l IH]; intros m.
  - simpl. rewrite app_nil_r. done.
  - cbn [foldl map]. destruct (IH (buildJob cronParse middlewaresOf m (name, j))) as (Hjobs & Hrun & Hsch).
    destruct (buildJob_sched m name j) as [Hjobs1 Hrun1].
    rewrite Hjobs, Hrun, Hjobs1, Hrun1, <- app_assoc.
    split; [|split; [reflexivity|]].
    + f_equal.
      rewrite (list_filter_iff _ (fun j0 => schedulable cronParse (objs m) j0))
        by (intros j0; rewrite schedulable_buildJob; reflexivity).
      cbn [snd]. destruct (schedulable cronParse (objs m) j) eqn:Hj.
      * rewrite filter_cons_True by (cbv beta; rewrite Hj; done). reflexivity.
      * rewrite filter_cons_False by (cbv beta; rewrite Hj; simpl; tauto). reflexivity.
    + intros j'. rewrite Hsch. apply schedulable_buildJob.
Qed.

Lemma consistent_same_schedules m m' :
  sched m' = sched m ->
  (forall j, Schedule (objs m' !!! j) = Schedule (objs m !!! j)) ->
  consistent cronParse m -> consistent cronParse m'.
Proof.
  intros Hsched Hsame (Hflag & Hentries & Hok & Hrun).
  unfold consistent, deref, GetSchedule in *. rewrite Hsched.
  split; [exact Hflag|split; [|split; [|exact Hrun]]].
  - rewrite Hentries. apply map_ext. intros j. rewrite Hsame. reflexivity.
  - eapply Forall_impl; [exact Hok|]. intros j. simpl. rewrite Hsame. done.
Qed.

Lemma buildJob_consistent m entry :
  consistent cronParse m -> consistent cronParse (buildJob cronParse middlewaresOf m entry).
Proof.
  intros Hm. destruct entry as [name j]. unfold buildJob.
  apply (consistent_step cronParse _ (OpAddJob j)).
  eapply consistent_same_schedules; [| |exact Hm]; [reflexivity|].
  intros j'. simpl.
  pose proof (buildJob_schedule m (name, j) j') as Hsame.
  rewrite buildJob_objs in Hsame. exact Hsame.
Qed.

Lemma build_unfold config o :
  build cronParse schedulerMiddlewares middlewaresOf None config o
  = inl (foldl (buildJob cronParse middlewaresOf)
           (buildSchedulerMiddlewares schedulerMiddlewares
              {| sched := NewScheduler; objs := o |})
           (allJobs config)).
Proof. unfold build, allJobs. rewrite !foldl_app. reflexivity. Qed.

(** X24. [build] fails only when the docker client cannot be created.  Otherwise
    it returns a scheduler that is not running and whose registry holds, in
    the order they were visited (exec, run, local, service), exactly the
    jobs whose schedule is neither empty nor rejected by the cron parser:
    the other jobs are dropped without an error, since the error of [AddJob]
    is not looked at.  The registry and the cron entries agree. *)
Theorem build_registers_schedulable config o :
  (forall msg, build cronParse schedulerMiddlewares middlewaresOf (Some msg) config o = inr (ErrExternal msg)) /\
  exists m,
    build cronParse schedulerMiddlewares middlewaresOf None config o = inl m /\
    Jobs (sched m) = filter (fun j => schedulable cronParse o j) (map snd (allJobs config)) /\
    IsRunning m = false /\
    consistent cronParse m.
Proof.
  split; [reflexivity|].
  eexists. split; [apply build_unfold|].
  destruct (buildSchedulerMiddlewares_keeps {| sched := NewScheduler; objs := o |})
    as (Hobjs & Hjobs & Hcron & Hrun).
  destruct (foldl_buildJob_sched (allJobs config)
              (buildSchedulerMiddlewares schedulerMiddlewares
                 {| sched := NewScheduler; objs := o |}))
    as (Hjobs' & Hrun' & _).
  split; [|split].
  - rewrite Hjobs', Hjobs, Hobjs. reflexivity.
  - unfold IsRunning. rewrite Hrun', Hrun. reflexivity.
  - assert (forall l m, consistent cronParse m -> consistent cronParse (foldl (buildJob cronParse middlewaresOf) m l))
      as Hall.
    { induction l as [|e l IH]; intros m Hm; [exact Hm|].
      cbn [foldl]. apply IH, buildJob_consistent, Hm. }
    apply Hall. unfold consistent, deref. rewrite Hjobs, Hcron, Hrun. simpl. done.
Qed.

Lemma foldl_buildJob_untouched (l : list (string * ptr)) j : forall m,
  j ∉ map snd l ->
  objs (foldl (buildJob cronParse middlewaresOf) m l) !! j = objs m !! j.
Proof.
  induction l as [|[name j'] l IH]; intros m Hnot; [reflexivity|].
  cbn [foldl]. rewrite fmap_cons in Hnot. cbn [snd] in Hnot.
  apply not_elem_of_cons in Hnot as [Hne Hnot].
  rewrite IH by done. rewrite buildJob_objs, lookup_alter_ne by done. reflexivity.
Qed.

Lemma foldl_buildJob_named (l : list (string * ptr)) : forall m name j job,
  NoDup (map snd l) ->
  (name, j) ∈ l ->
  objs m !! j = Some job ->
  objs (foldl (buildJob cronParse middlewaresOf) m l) !! j
  = Some (buildMiddlewares middlewaresOf j (setName name job)).
Proof.
  induction l as [|[name' j'] l IH]; intros m name j job Hnodup Hin Hjob.
  - by apply elem_of_nil in Hin.
  - cbn [foldl]. rewrite fmap_cons in Hnodup. cbn [snd] in Hnodup.
    apply NoDup_cons in Hnodup as [Hfresh Hnodup].
    apply elem_of_cons in Hin as [[= -> ->]|Hin].
    + rewrite foldl_buildJob_untouched by done.
      rewrite buildJob_objs, lookup_alter_eq, Hjob. reflexivity.
    + assert (j ≠ j') as Hne.
      { intros ->. apply Hfresh.
        apply (list_elem_of_fmap_2 snd l (name, j')), Hin. }
      apply IH; [done|done|].
      rewrite buildJob_objs, lookup_alter_ne by done. exact Hjob.
Qed.

(** X25. When the job objects of a configuration are distinct, [build] names
    each of them after its key in the configuration, and leaves its
    schedule, its command and its running counter as they were read. *)
Theorem build_names_jobs config o m name j job :
  NoDup (map snd (allJobs config)) ->
  build cronParse schedulerMiddlewares middlewaresOf None config o = inl m ->
  (name, j) ∈ allJobs config ->
  o !! j = Some job ->
  GetName (deref m j) = name /\
  GetSchedule (deref m j) = GetSchedule job /\
  GetCommand (deref m j) = GetCommand job /\
  Running (deref m j) = Running job.
Proof.
  intros Hnodup Hbuild Hin Hjob. rewrite build_unfold in Hbuild.
  injection Hbuild as <-.
  unfold deref. rewrite lookup_total_alt.
  rewrite (foldl_buildJob_named (allJobs config) _ name j job Hnodup Hin).
  2:{ rewrite (proj1 (buildSchedulerMiddlewares_keeps _)). exact Hjob. }
  simpl. unfold GetName, GetSchedule, GetCommand, Running.
  destruct (buildMiddlewares_fields j (setName name job)) as (H1 & H2 & H3 & H4).
  rewrite H1, H2, H3, H4. done.
Qed.

End ConfigFacts.

Lemma build_names_jobs_sample :
  exists m,
    build fixtures.strict ["slack"] (fun _ => ["overlap"]) None fixtures.config
      fixtures.objects = inl m /\
    Jobs (sched m) = [1%positive; 4%positive] /\
    GetName (deref m 4%positive) = "cleanup" /\
    GetName (deref m 2%positive) = "broken".
Proof.
  eexists. split; [reflexivity|]. split; [reflexivity|]. split.
  - apply (build_names_jobs fixtures.strict ["slack"] (fun _ => ["overlap"])
             fixtures.config fixtures.objects _ "cleanup" 4%positive
             (fixtures.scheduled "@daily" "rm -rf /tmp/cache"));
      [compute_done|reflexivity|compute_done|reflexivity].
  - apply (build_names_jobs fixtures.strict ["slack"] (fun _ => ["overlap"])
             fixtures.config fixtures.objects _ "broken" 2%positive
             (fixtures.scheduled "" "true"));
      [compute_done|reflexivity|compute_done|reflexivity].
Defined.
